(** * blink-back: the channel registry and the payment builder of [server.ts]

    A shallow embedding of the Express handlers of [src/server.ts]
    ([POST /api/blink/create], [GET /api/:channelName],
    [POST /api/:channelName], [GET /api/channels/list]) together with the
    helpers they call ([readData], [writeData], [validateChannelName],
    [isValidUrl], [isValidTelegramLink]).

    - JavaScript strings are sequences of UTF-16 code units ([jsstring]).
    - JavaScript numbers are IEEE-754 binary64 values (primitive floats).
    - The backing file [data.json] is an explicit state that the handlers
      read and (for registration) replace.
    - What lives outside the repository (the ledger SDK's [PublicKey] and
      [SystemProgram.transfer], the WHATWG [URL] parser, the ledger node,
      the clock, the disk) is an explicit parameter of the handlers.
    - A request body is taken as already parsed into the interface the
      handler declares for it, and requests are served one at a time. *)

From Stdlib Require Import ZArith NArith List Bool String Ascii Lia Uint63.
From Stdlib Require Import Floats.PrimFloat Floats.SpecFloat Floats.FloatOps.
Import ListNotations.

#[local] Set Warnings "-inexact-float".
#[local] Open Scope bool_scope.

(* ===================================================================== *)
(** ** JavaScript strings *)
(* ===================================================================== *)

(** A string is its sequence of UTF-16 code units; [List.length] is then the
    JavaScript [.length]. *)
Definition codeunit := N.
Definition jsstring := list codeunit.

(** ASCII literals of the source, as code units. *)
Definition js (s : string) : jsstring :=
  map N_of_ascii (list_ascii_of_string s).

Definition eqs (a b : jsstring) : bool :=
  if list_eq_dec N.eq_dec a b then true else false.

(** [WhiteSpace] and [LineTerminator] of ECMAScript: what the regular
    expression class [\s] matches and what [String.prototype.trim] strips. *)
Definition isWhiteSpace (c : codeunit) : bool :=
  ((9 <=? c) && (c <=? 13)          (* TAB LF VT FF CR *)
   || (c =? 32)                     (* SPACE *)
   || (c =? 160)                    (* U+00A0 *)
   || (c =? 5760)                   (* U+1680 *)
   || ((8192 <=? c) && (c <=? 8202))(* U+2000 .. U+200A *)
   || (c =? 8232) || (c =? 8233)    (* U+2028 U+2029 *)
   || (c =? 8239)                   (* U+202F *)
   || (c =? 8287)                   (* U+205F *)
   || (c =? 12288)                  (* U+3000 *)
   || (c =? 65279))%N.              (* U+FEFF *)

Definition isUpper (c : codeunit) : bool := ((65 <=? c) && (c <=? 90))%N.
Definition isLower (c : codeunit) : bool := ((97 <=? c) && (c <=? 122))%N.
Definition isDigit (c : codeunit) : bool := ((48 <=? c) && (c <=? 57))%N.

Definition hyphen : codeunit := 45%N.
Definition underscore : codeunit := 95%N.

(** [String.prototype.toLowerCase], one code unit at a time: [A-Z] goes to
    [a-z].  Code units outside ASCII are kept as they are, which is what
    ECMAScript does on every code unit that [validateChannelName] lets
    through (ASCII letters and digits, [-], [_], and white space, none of
    which has a case mapping other than [A-Z]).  The GET and payment routes
    take the name from the URL without that test; on a name with a cased
    unit outside ASCII (U+212A KELVIN SIGN, which ECMAScript lowers to [k])
    the route derived here keeps the unit where ECMAScript lowers it. *)
Definition toLowerUnit (c : codeunit) : codeunit :=
  if isUpper c then (c + 32)%N else c.

Definition toLowerCase (s : jsstring) : jsstring := map toLowerUnit s.

(** [s.replace(/\s+/g, '-')]: every maximal run of white space becomes one
    hyphen.  The scan emits the hyphen when it reaches the last unit of a
    run and drops the units before it. *)
Fixpoint replaceWhiteSpaceRuns (s : jsstring) : jsstring :=
  match s with
  | [] => []
  | c :: rest =>
      if isWhiteSpace c then
        match rest with
        | d :: _ => if isWhiteSpace d then replaceWhiteSpaceRuns rest
                    else hyphen :: replaceWhiteSpaceRuns rest
        | [] => [hyphen]
        end
      else c :: replaceWhiteSpaceRuns rest
  end.

Fixpoint dropWhile {A} (p : A -> bool) (l : list A) : list A :=
  match l with
  | [] => []
  | x :: t => if p x then dropWhile p t else l
  end.

Definition trimStart (s : jsstring) : jsstring := dropWhile isWhiteSpace s.
Definition trimEnd (s : jsstring) : jsstring := rev (dropWhile isWhiteSpace (rev s)).
Definition trim (s : jsstring) : jsstring := trimEnd (trimStart s).

Fixpoint startsWith (s prefix : jsstring) : bool :=
  match prefix, s with
  | [], _ => true
  | p :: ps, c :: cs => (p =? c)%N && startsWith cs ps
  | _ :: _, [] => false
  end.

(* ===================================================================== *)
(** ** Validator *)
(* ===================================================================== *)

(** The character class [[a-zA-Z0-9-_\s]]. *)
Definition isNameUnit (c : codeunit) : bool :=
  isLower c || isUpper c || isDigit c
  || (c =? hyphen)%N || (c =? underscore)%N || isWhiteSpace c.

(** [/^[a-zA-Z0-9-_\s]{3,50}$/.test(name)]: without the [m] flag the anchors
    are the two ends of the input, so the whole string is 3 to 50 units of
    the class. *)
Definition validateChannelName (name : jsstring) : bool :=
  (3 <=? List.length name) && (List.length name <=? 50) && forallb isNameUnit name.

(** The route template [`/api/${channelName.toLowerCase().replace(/\s+/g, '-')}`],
    written out three times in the source (lines 130, 182, 224). *)
Definition deriveRoute (channelName : jsstring) : jsstring :=
  js "/api/" ++ replaceWhiteSpaceRuns (toLowerCase channelName).

(* ===================================================================== *)
(** ** Data model (lines 23-41) *)
(* ===================================================================== *)

(** [interface BlinkRequest]: the body of a registration request.
    [coverImage?] is [None] when the property is absent. *)
Module BlinkRequest.
Record t := mk {
  channelName : jsstring;
  description : jsstring;
  fee : float;
  publicKey : jsstring;
  coverImage : option jsstring;
  telegramLink : jsstring
}.
End BlinkRequest.

(** [interface BlinkData]: a persisted channel record. *)
Module BlinkData.
Record t := mk {
  route : jsstring;
  channelName : jsstring;
  description : jsstring;
  fee : float;
  coverImage : jsstring;
  publicKey : jsstring;
  createdAt : jsstring;
  telegramLink : jsstring;
  link : jsstring
}.
End BlinkData.

(** [interface StorageData]. *)
Record StorageData := { blinks : list BlinkData.t }.

(** One element of the listing (lines 277-283). *)
Module Summary.
Record t := mk {
  channelName : jsstring;
  description : jsstring;
  fee : float;
  route : jsstring;
  createdAt : jsstring
}.
End Summary.

(** A value raised by [throw]: the handlers only ask whether it is an
    [Error] instance, and then read its [message]. *)
Inductive Thrown :=
| ErrorObject (message : jsstring)
| NonError.

(** JavaScript truthiness of an optional string: [undefined] and [''] are
    falsy. *)
Definition truthy (s : option jsstring) : bool :=
  match s with
  | Some (_ :: _) => true
  | _ => false
  end.

(** [a || b] on strings. *)
Definition orElse (s : option jsstring) (dflt : jsstring) : jsstring :=
  match s with
  | Some (c :: r) => c :: r
  | _ => dflt
  end.

(* ===================================================================== *)
(** ** Record store (lines 44, 59-71) *)
(* ===================================================================== *)

(** What [data.json] holds: a document that [JSON.parse] turns into a
    [StorageData] (the only documents [writeData] produces, and the type
    [readData] declares), or text that [JSON.parse] rejects with a
    [SyntaxError].  Numbers go through [JSON.stringify] and [JSON.parse]
    unchanged when they are finite, as every fee read from a JSON request
    body that passes the fee test is. *)
Inductive FileContent :=
| Document (d : StorageData)
| Garbage.

(** The backing file as [fs.readFile] meets it. *)
Inductive FileState :=
| FileMissing                     (* ENOENT: never written *)
| FilePresent (c : FileContent)
| FileUnreadable.                 (* any other rejection: EACCES, EISDIR, EIO ... *)

(** The file is missing, or it is there and [fs.readFile] gives its text. *)
Definition canBeRead (f : FileState) : bool :=
  match f with
  | FileUnreadable => false
  | _ => true
  end.

Definition readFile (f : FileState) : Thrown + FileContent :=
  match f with
  | FileMissing => inl (ErrorObject (js "ENOENT: no such file or directory"))
  | FilePresent c => inr c
  | FileUnreadable => inl (ErrorObject (js "EACCES: permission denied"))
  end.

Definition JSON_parse (c : FileContent) : Thrown + StorageData :=
  match c with
  | Document d => inr d
  | Garbage => inl (ErrorObject (js "Unexpected end of JSON input"))
  end.

(** [readData] (lines 60-67): the [catch] clause takes every rejection of
    [readFile] and every exception of [JSON.parse]. *)
Definition readData (f : FileState) : StorageData :=
  match readFile f with
  | inr data =>
      match JSON_parse data with
      | inr d => d
      | inl _ => {| blinks := [] |}
      end
  | inl _ => {| blinks := [] |}
  end.

(** How the disk treats one call of [fs.writeFile(DATA_FILE, text)], which
    opens the file with flag [w] (truncating it) and then writes the text:
    the write completes; or the open is refused and the file keeps its
    bytes; or the file is truncated and the write stops before the end, so
    that a proper prefix of the document is left, which is not JSON. *)
Inductive WriteOutcome :=
| WriteCompletes
| WriteRefused
| WriteTorn.

(** The file once [fs.writeFile] has put new text in it.  A missing file
    is created; an existing one is opened as it is, and neither its mode nor
    its owner changes: a file that [fs.readFile] is refused (a [data.json]
    the process may write but not read) is refused as before, whatever was
    written. *)
Definition overwritten (f : FileState) (c : FileContent) : FileState :=
  match f with
  | FileUnreadable => FileUnreadable
  | _ => FilePresent c
  end.

(** [writeData] (lines 69-71): the state of the file afterwards, and the
    rejection if any. *)
Definition writeData (disk : WriteOutcome) (f : FileState) (data : StorageData)
  : FileState * option Thrown :=
  match disk with
  | WriteCompletes => (overwritten f (Document data), None)
  | WriteRefused => (f, Some (ErrorObject (js "EACCES: permission denied")))
  | WriteTorn => (overwritten f Garbage,
                  Some (ErrorObject (js "ENOSPC: no space left on device")))
  end.

(* ===================================================================== *)
(** ** What the handlers take from outside the repository *)
(* ===================================================================== *)

(** A [PublicKey] of the ledger SDK is the number its 32 bytes hold. *)
Definition PublicKey := N.

(** The instruction [SystemProgram.transfer] returns: the two accounts and
    the amount as the SDK encoded it, an integer number of lamports. *)
Record Instruction := {
  fromPubkey : PublicKey;
  toPubkey : PublicKey;
  lamports : Z
}.

(** The ledger SDK's [PublicKey] class and [SystemProgram.transfer], and
    the WHATWG [URL] constructor.  [newPublicKey s] is [new PublicKey(s)],
    which throws on a malformed address; [publicKeyToString] is
    [PublicKey.prototype.toString]; [SystemProgram_transfer from to amount]
    is [SystemProgram.transfer({fromPubkey, toPubkey, lamports: amount})],
    which encodes the amount and may refuse it; [urlHostname u] is
    [new URL(u).hostname], [None] when the constructor throws. *)
Class Platform := {
  newPublicKey : jsstring -> Thrown + PublicKey;
  publicKeyToString : PublicKey -> jsstring;
  SystemProgram_transfer : PublicKey -> PublicKey -> float -> Thrown + Instruction;
  urlHostname : jsstring -> option jsstring
}.

(** What one registration request meets: the clock ([new Date().toISOString()]),
    the environment variable [BASE_URL], and the disk. *)
Record Env := {
  now : jsstring;
  BASE_URL : option jsstring;
  disk : WriteOutcome
}.

(** [LAMPORTS_PER_SOL], the constant exported by [@solana/web3.js]. *)
Definition LAMPORTS_PER_SOL : float := 1000000000%float.

(** [blink.fee * LAMPORTS_PER_SOL], the product written at lines 236 and
    247: one binary64 multiplication, rounded to nearest. *)
Definition feeInLamports (fee : float) : float := (fee * LAMPORTS_PER_SOL)%float.

(** The integer a number is, when it is one ([Number.isInteger]): a finite
    binary64 value [m * 2^e] with no fractional part. *)
Definition toInteger (x : float) : option Z :=
  match Prim2SF x with
  | S754_zero _ => Some 0%Z
  | S754_finite s m e =>
      let signed (v : Z) := if s then (- v)%Z else v in
      if (0 <=? e)%Z then Some (signed (Z.pos m * 2 ^ e)%Z)
      else if (Z.pos m mod 2 ^ (- e) =? 0)%Z then Some (signed (Z.pos m / 2 ^ (- e))%Z)
      else None
  | S754_infinity _ => None
  | S754_nan => None
  end.

(** The number a small natural is ([0 <= n < 2^53] is exact). *)
Definition wholeNumber (n : Z) : float := PrimFloat.of_uint63 (Uint63.of_Z n).

(** Is the amount computed for the whole-number fee [n] the integer
    [n * 10^9]? *)
Definition wholeFeeExact (n : Z) : bool :=
  match toInteger (feeInLamports (wholeNumber n)) with
  | Some z => (z =? n * 1000000000)%Z
  | None => false
  end.

(** The ledger node as one payment request meets it: the answers of
    [connection.getBalance] and [connection.getLatestBlockhash], each of
    which may reject (time-out, network error). *)
Record Ledger := {
  getBalance : PublicKey -> Thrown + float;
  getLatestBlockhash : Thrown + jsstring
}.

(** [new Transaction({feePayer, recentBlockhash}).add(...)] (lines 250-253). *)
Record Transaction := {
  feePayer : PublicKey;
  recentBlockhash : jsstring;
  instructions : list Instruction
}.

(** What a handler sends. *)
Inductive Response :=
| JsonError (status : nat) (error : jsstring)
    (* res.status(status).json({ error }) *)
| Created (route channelName : jsstring)
    (* res.status(201).json({ message, route, channelName }) *)
| ActionGet (icon label title description : jsstring)
    (* res.set(actionHeaders).json(payload) *)
| ActionPost (transaction : Transaction) (message : jsstring)
    (* res.set(actionHeaders).json({ ...postResponse }) *)
| ChannelList (summaries : list Summary.t).

(** [errorHandler] (lines 54-57), reached through [next(error)]. *)
Definition errorHandler : Response :=
  JsonError 500 (js "Internal server error").

Section Handlers.

Context {P : Platform}.

(** [isValidUrl] (lines 79-86). *)
Definition isValidUrl (url : jsstring) : bool :=
  match urlHostname url with
  | Some _ => startsWith url (js "http://") || startsWith url (js "https://")
  | None => false
  end.

(** [isValidTelegramLink] (lines 88-95). *)
Definition isValidTelegramLink (url : jsstring) : bool :=
  match urlHostname url with
  | Some hostname => eqs hostname (js "t.me") || eqs hostname (js "telegram.me")
  | None => false
  end.

(** The messages of the registration handler. *)
Definition msgInvalidName : jsstring :=
  js "Invalid channel name. Use only letters, numbers, spaces, hyphens, and underscores (3-50 characters).".
Definition msgInvalidDescription : jsstring :=
  js "Description must be between 10 and 1000 characters".
Definition msgInvalidFee : jsstring := js "Fee must be between 0 and 1000".
Definition msgKeyRequired : jsstring := js "Public key is required".
Definition msgInvalidCover : jsstring := js "Invalid cover image URL".
Definition msgInvalidTelegram : jsstring :=
  js "Invalid Telegram link. Must be a t.me or telegram.me URL".
Definition msgInvalidKey : jsstring := js "Invalid public key format".
Definition msgDuplicate : jsstring := js "Channel name already exists".
Definition msgSaving : jsstring := js "Error saving data".
Definition msgNotFound : jsstring := js "Channel not found".

(** The six tests of lines 103-120, each [true] when the request passes. *)
Definition descriptionOk (description : jsstring) : bool :=
  negb ((List.length (trim description) <? 10) || (1000 <? List.length description)).

Definition feeOk (fee : float) : bool :=
  negb ((fee <=? 0)%float || (1000 <? fee)%float).

Definition keyPresent (publicKey : jsstring) : bool :=
  truthy (Some (trim publicKey)).

Definition coverOk (coverImage : option jsstring) : bool :=
  match coverImage with
  | Some (c :: r) => isValidUrl (c :: r)
  | _ => true            (* [undefined] and [''] are falsy: no test *)
  end.

Definition defaultCover : jsstring := js "https://example.com/default-icon.png".
Definition defaultBase : jsstring := js "https://blink-back.onrender.com".

(** The record built at lines 147-157. *)
Definition newBlink (env : Env) (req : BlinkRequest.t) (pubKey : PublicKey)
  : BlinkData.t :=
  let route := deriveRoute (BlinkRequest.channelName req) in
  {| BlinkData.route := route;
     BlinkData.channelName := BlinkRequest.channelName req;
     BlinkData.description := BlinkRequest.description req;
     BlinkData.fee := BlinkRequest.fee req;
     BlinkData.coverImage := orElse (BlinkRequest.coverImage req) defaultCover;
     BlinkData.publicKey := publicKeyToString pubKey;
     BlinkData.createdAt := now env;
     BlinkData.telegramLink := BlinkRequest.telegramLink req;
     BlinkData.link := orElse (BASE_URL env) defaultBase ++ route |}.

(** [app.post('/api/blink/create')] (lines 98-176): the response, and the
    backing file afterwards.  [readData] returns whatever the file holds, so
    the [catch] of lines 136-139 (['Error accessing storage']) has no way in;
    nothing else in the [try] throws on a request of the declared type, so
    neither has the [catch] of lines 173-175. *)
Definition postBlinkCreate (env : Env) (f : FileState) (req : BlinkRequest.t)
  : Response * FileState :=
  if negb (validateChannelName (BlinkRequest.channelName req)) then
    (JsonError 400 msgInvalidName, f)
  else if negb (descriptionOk (BlinkRequest.description req)) then
    (JsonError 400 msgInvalidDescription, f)
  else if negb (feeOk (BlinkRequest.fee req)) then
    (JsonError 400 msgInvalidFee, f)
  else if negb (keyPresent (BlinkRequest.publicKey req)) then
    (JsonError 400 msgKeyRequired, f)
  else if negb (coverOk (BlinkRequest.coverImage req)) then
    (JsonError 400 msgInvalidCover, f)
  else if negb (isValidTelegramLink (BlinkRequest.telegramLink req)) then
    (JsonError 400 msgInvalidTelegram, f)
  else
    match newPublicKey (BlinkRequest.publicKey req) with
    | inl _ => (JsonError 400 msgInvalidKey, f)
    | inr pubKey =>
        let route := deriveRoute (BlinkRequest.channelName req) in
        let data := readData f in
        if existsb (fun b => eqs (BlinkData.route b) route) (blinks data) then
          (JsonError 400 msgDuplicate, f)
        else
          let data' := {| blinks := blinks data ++ [newBlink env req pubKey] |} in
          match writeData (disk env) f data' with
          | (f', Some _) => (JsonError 500 msgSaving, f')
          | (f', None) => (Created route (BlinkRequest.channelName req), f')
          end
    end.

(** The lookup of lines 182-185 and 223-224: the first record whose route is
    the one derived from the requested name. *)
Definition resolve (f : FileState) (channelName : jsstring) : option BlinkData.t :=
  find (fun b => eqs (BlinkData.route b) (deriveRoute channelName))
       (blinks (readData f)).

(** [app.get('/api/:channelName')] (lines 179-204). *)
Definition getChannel (f : FileState) (channelName : jsstring) : Response :=
  match resolve f channelName with
  | None => JsonError 404 msgNotFound
  | Some blink =>
      ActionGet (BlinkData.coverImage blink)
                (js "Join our Telegram channel")
                (BlinkData.channelName blink)
                (BlinkData.description blink)
  end.

(** [app.get('/api/channels/list')] (lines 274-287). *)
Definition summarize (b : BlinkData.t) : Summary.t :=
  {| Summary.channelName := BlinkData.channelName b;
     Summary.description := BlinkData.description b;
     Summary.fee := BlinkData.fee b;
     Summary.route := BlinkData.route b;
     Summary.createdAt := BlinkData.createdAt b |}.

Definition getChannelsList (f : FileState) : Response :=
  ChannelList (map summarize (blinks (readData f))).

(** *** The payment handler

    The body of [app.post('/api/:channelName')] runs inside one [try]; a
    statement either goes on, or answers the request ([return res...]), or
    throws into the [catch] of lines 266-271. *)
Inductive Completion (A : Type) :=
| Normal (a : A)
| Answered (r : Response)
| Threw (t : Thrown).
Arguments Normal {A} a.
Arguments Answered {A} r.
Arguments Threw {A} t.

Definition bind {A B} (c : Completion A) (k : A -> Completion B) : Completion B :=
  match c with
  | Normal a => k a
  | Answered r => Answered r
  | Threw t => Threw t
  end.

Notation "x <- c ;; k" := (bind c (fun x => k))
  (at level 61, c at next level, right associativity).

(** A call into a library that may throw. *)
Definition call {A} (r : Thrown + A) : Completion A :=
  match r with
  | inl t => Threw t
  | inr a => Normal a
  end.

(** [try { body } catch (error) { return answer }]. *)
Definition tryCatch {A} (body : Completion A) (answer : Response) : Completion A :=
  match body with
  | Threw _ => Answered answer
  | c => c
  end.

(** [if (cond) return answer]. *)
Definition answerIf (cond : bool) (answer : Response) : Completion unit :=
  if cond then Answered answer else Normal tt.

Definition thanks (blink : BlinkData.t) : jsstring :=
  js "Thanks for joining! After payment, you can access the channel at: "
  ++ BlinkData.link blink ++ js " (Telegram: " ++ BlinkData.telegramLink blink ++ js ")".

(** Lines 209-265.  [createPostResponse] is taken as the constructor of the
    answer: the envelope it builds around the transaction is the library's. *)
Definition postChannelBody (ledger : Ledger) (f : FileState)
    (channelName : jsstring) (account : option jsstring) : Completion Response :=
  _ <- answerIf (negb (truthy account)) (JsonError 400 (js "Account is required")) ;;
  accountPubKey <- tryCatch (call (newPublicKey (orElse account [])))
                            (JsonError 400 (js "Invalid account public key")) ;;
  blink <- match resolve f channelName with
           | None => Answered (JsonError 404 msgNotFound)
           | Some b => Normal b
           end ;;
  recipientPubKey <- call (newPublicKey (BlinkData.publicKey blink)) ;;
  _ <- tryCatch
         (balance <- call (getBalance ledger accountPubKey) ;;
          let requiredAmount := feeInLamports (BlinkData.fee blink) in
          answerIf (balance <? requiredAmount)%float
                   (JsonError 400 (js "Insufficient balance")))
         (JsonError 500 (js "Error checking balance")) ;;
  transferSolInstruction <-
    call (SystemProgram_transfer accountPubKey recipientPubKey
                                 (feeInLamports (BlinkData.fee blink))) ;;
  blockhash <- call (getLatestBlockhash ledger) ;;
  let transaction :=
    {| feePayer := accountPubKey;
       recentBlockhash := blockhash;
       instructions := [transferSolInstruction] |} in
  Normal (ActionPost transaction (thanks blink)).

(** The [catch] of lines 266-271. *)
Definition postChannelCatch (error : Thrown) : Response :=
  match error with
  | ErrorObject message => JsonError 400 message
  | NonError => errorHandler
  end.

(** [app.post('/api/:channelName')] (lines 207-272). *)
Definition postChannel (ledger : Ledger) (f : FileState)
    (channelName : jsstring) (account : option jsstring) : Response :=
  match postChannelBody ledger f channelName account with
  | Normal r => r
  | Answered r => r
  | Threw error => postChannelCatch error
  end.

End Handlers.

(* ===================================================================== *)
(** ** A reference platform, on which the handlers can be run *)
(* ===================================================================== *)

(** Base58 addresses as the ledger SDK reads them (a key is the number
    held by its 32 bytes), and a parser for URLs of the plain shape
    [scheme://host[:port][/...]]. *)
Module Reference.

Definition alphabet : jsstring :=
  js "123456789ABCDEFGHJKLMNPQRSTUVWXYZabcdefghijkmnopqrstuvwxyz".

Fixpoint indexOf (c : codeunit) (l : jsstring) : option N :=
  match l with
  | [] => None
  | x :: t => if (x =? c)%N then Some 0%N
              else option_map N.succ (indexOf c t)
  end.

(** The digits of a string, [None] at the first unit outside the alphabet. *)
Fixpoint digits (s : jsstring) : option (list N) :=
  match s with
  | [] => Some []
  | c :: t =>
      match indexOf c alphabet, digits t with
      | Some d, Some ds => Some (d :: ds)
      | _, _ => None
      end
  end.

Definition valueOf (ds : list N) : N :=
  fold_left (fun acc d => (acc * 58 + d)%N) ds 0%N.

Definition byteLength (n : N) : nat := N.to_nat ((N.size n + 7) / 8).

(** [new PublicKey(s)]: [bs58.decode], then the test on the length. *)
Definition decodeKey (s : jsstring) : Thrown + N :=
  match digits s with
  | None => inl (ErrorObject (js "Non-base58 character"))
  | Some ds =>
      let zeroes := List.length ds - List.length (dropWhile (N.eqb 0) ds) in
      let n := valueOf ds in
      if Nat.eqb (zeroes + byteLength n) 32 then inr n
      else inl (ErrorObject (js "Invalid public key input"))
  end.

Fixpoint encode (fuel : nat) (n : N) (acc : jsstring) : jsstring :=
  match fuel with
  | O => acc
  | S fuel' =>
      if (n =? 0)%N then acc
      else encode fuel' (n / 58)%N (nth (N.to_nat (n mod 58)%N) alphabet 0%N :: acc)
  end.

(** [PublicKey.prototype.toString]: [bs58.encode] of the 32 bytes. *)
Definition encodeKey (n : N) : jsstring :=
  repeat 49%N (32 - byteLength n) ++ encode 64 n [].

(** Host names end at [/], [?], [#] or [:]. *)
Definition endsHost (c : codeunit) : bool :=
  ((c =? 47) || (c =? 63) || (c =? 35) || (c =? 58))%N.

Fixpoint takeHost (s : jsstring) : jsstring :=
  match s with
  | [] => []
  | c :: t => if endsHost c then [] else toLowerUnit c :: takeHost t
  end.

Fixpoint afterScheme (s : jsstring) : option jsstring :=
  match s with
  | c :: t =>
      if isLower c || isUpper c then afterScheme t
      else if startsWith s (js "://") then Some (skipn 3 s) else None
  | [] => None
  end.

Definition hostnameOf (url : jsstring) : option jsstring :=
  match url with
  | c :: _ =>
      if isLower c || isUpper c then
        match afterScheme url with
        | Some rest =>
            match takeHost rest with
            | [] => None
            | h => if existsb isWhiteSpace h then None else Some h
            end
        | None => None
        end
      else None
  | [] => None
  end.

(** [SystemProgram.transfer]: the amount goes through [BigInt], which
    throws a [RangeError] on a number that is not an integer (the engine's
    message also spells the number out). *)
Definition transfer (from to : PublicKey) (amount : float) : Thrown + Instruction :=
  match toInteger amount with
  | Some z => inr {| fromPubkey := from; toPubkey := to; lamports := z |}
  | None =>
      inl (ErrorObject
             (js "The number cannot be converted to a BigInt because it is not an integer"))
  end.

Definition platform : Platform :=
  {| newPublicKey := decodeKey;
     publicKeyToString := encodeKey;
     SystemProgram_transfer := transfer;
     urlHostname := hostnameOf |}.

End Reference.

(** Requests and stores on which the handlers are run below. *)
Module Sample.

Definition owner : jsstring := js "So11111111111111111111111111111111111111112".
Definition otherOwner : jsstring := js "MemoSq4gqABAXKb96qnH8TysNcWxMyWCqXgDLGmfcHr".
Definition payer : jsstring := js "Vote111111111111111111111111111111111111111".

Definition env (d : WriteOutcome) : Env :=
  {| now := js "2024-05-01T12:00:00.000Z"; BASE_URL := None; disk := d |}.

(** The request of the specification's end-to-end example, with a chosen
    name and fee. *)
Definition request (name : string) (fee : float) : BlinkRequest.t :=
  {| BlinkRequest.channelName := js name;
     BlinkRequest.description := js "Support my show please";
     BlinkRequest.fee := fee;
     BlinkRequest.publicKey := owner;
     BlinkRequest.coverImage := None;
     BlinkRequest.telegramLink := js "https://t.me/testshow" |}.

(** A malformed (non-empty) owner address together with a cover image that
    is not a URL. *)
Definition badKeyAndCover : BlinkRequest.t :=
  {| BlinkRequest.channelName := js "Test Show";
     BlinkRequest.description := js "Support my show please";
     BlinkRequest.fee := 0.5%float;
     BlinkRequest.publicKey := js "not-a-key";
     BlinkRequest.coverImage := Some (js "not a url");
     BlinkRequest.telegramLink := js "https://t.me/testshow" |}.

(** 1000 letters followed by one space: trimmed length 1000, length 1001. *)
Definition paddedDescription : jsstring := repeat 97%N 1000 ++ [32%N].

Definition requestDescribed (d : jsstring) : BlinkRequest.t :=
  {| BlinkRequest.channelName := js "Test Show";
     BlinkRequest.description := d;
     BlinkRequest.fee := 0.5%float;
     BlinkRequest.publicKey := owner;
     BlinkRequest.coverImage := None;
     BlinkRequest.telegramLink := js "https://t.me/testshow" |}.

(** A store holding one channel registered by the given owner. *)
Definition storeOwnedBy (k : jsstring) : FileState :=
  snd (@postBlinkCreate Reference.platform (env WriteCompletes) FileMissing
         {| BlinkRequest.channelName := js "Test Show";
            BlinkRequest.description := js "Support my show please";
            BlinkRequest.fee := 0.5%float;
            BlinkRequest.publicKey := k;
            BlinkRequest.coverImage := None;
            BlinkRequest.telegramLink := js "https://t.me/testshow" |}).

(** A store holding one channel, as a completed registration leaves it. *)
Definition storeWith (name : string) (fee : float) : FileState :=
  snd (@postBlinkCreate Reference.platform (env WriteCompletes) FileMissing
                        (request name fee)).

(** A ledger node that answers: the payer holds 5 SOL. *)
Definition ledgerUp : Ledger :=
  {| getBalance := fun _ => inr 5000000000%float;
     getLatestBlockhash := inr (js "EkSnNWid2cvwEVnVx9aBqawnmiCNiDgp3gUdkDPTKN1N") |}.

(** A ledger node that answers the balance request and then times out. *)
Definition ledgerTimesOut : Ledger :=
  {| getBalance := fun _ => inr 5000000000%float;
     getLatestBlockhash := inl (ErrorObject (js "fetch failed")) |}.

(** The keys the two addresses stand for. *)
Definition keyOf (address : jsstring) : PublicKey :=
  match Reference.decodeKey address with
  | inr k => k
  | inl _ => 0%N
  end.

(** The transaction a payment of 2 SOL to [owner] by [payer] is answered
    with, and the message that goes with it. *)
Definition paidTransaction : Transaction :=
  {| feePayer := keyOf payer;
     recentBlockhash := js "EkSnNWid2cvwEVnVx9aBqawnmiCNiDgp3gUdkDPTKN1N";
     instructions :=
       [ {| fromPubkey := keyOf payer; toPubkey := keyOf owner;
            lamports := 2000000000 |} ] |}.

Definition paidMessage : jsstring :=
  js "Thanks for joining! After payment, you can access the channel at: https://blink-back.onrender.com/api/test-show (Telegram: https://t.me/testshow)".

(** A ledger node that answers: the payer holds one lamport. *)
Definition ledgerPoor : Ledger :=
  {| getBalance := fun _ => inr 1%float;
     getLatestBlockhash := inr (js "EkSnNWid2cvwEVnVx9aBqawnmiCNiDgp3gUdkDPTKN1N") |}.

(** A ledger node that is down when the balance is asked for. *)
Definition ledgerDown : Ledger :=
  {| getBalance := fun _ => inl (ErrorObject (js "fetch failed"));
     getLatestBlockhash := inl (ErrorObject (js "fetch failed")) |}.

End Sample.

(* ===================================================================== *)
(** ** Vocabulary of the properties *)
(* ===================================================================== *)

(** Two names that differ only in letter case or in the length of their
    white-space runs: unit by unit they agree up to case, and a run of
    white space on one side faces a run of white space on the other. *)
Inductive sameUpToCaseAndSpacing : jsstring -> jsstring -> Prop :=
| same_end : sameUpToCaseAndSpacing [] []
| same_unit c d s t :
    isWhiteSpace c = false -> isWhiteSpace d = false ->
    toLowerUnit c = toLowerUnit d ->
    sameUpToCaseAndSpacing s t ->
    sameUpToCaseAndSpacing (c :: s) (d :: t)
| same_space c d s t :
    isWhiteSpace c = true -> isWhiteSpace d = true ->
    sameUpToCaseAndSpacing s t ->
    sameUpToCaseAndSpacing (c :: s) (d :: t)
| same_longer_left c c' s t :
    isWhiteSpace c = true -> isWhiteSpace c' = true ->
    sameUpToCaseAndSpacing (c' :: s) t ->
    sameUpToCaseAndSpacing (c :: c' :: s) t
| same_longer_right d d' s t :
    isWhiteSpace d = true -> isWhiteSpace d' = true ->
    sameUpToCaseAndSpacing s (d' :: t) ->
    sameUpToCaseAndSpacing s (d :: d' :: t).

(** Does a string start with white space? *)
Definition startsWithSpace (s : jsstring) : bool :=
  match s with
  | c :: _ => isWhiteSpace c
  | [] => false
  end.

(** A name made of white space only. *)
Definition whiteSpaceOnly (name : jsstring) : bool :=
  match name with
  | [] => false
  | _ => forallb isWhiteSpace name
  end.

(** Two records that agree on every field but [publicKey]. *)
Definition sameButOwner (a b : BlinkData.t) : Prop :=
  BlinkData.route a = BlinkData.route b
  /\ BlinkData.channelName a = BlinkData.channelName b
  /\ BlinkData.description a = BlinkData.description b
  /\ BlinkData.fee a = BlinkData.fee b
  /\ BlinkData.coverImage a = BlinkData.coverImage b
  /\ BlinkData.createdAt a = BlinkData.createdAt b
  /\ BlinkData.telegramLink a = BlinkData.telegramLink b
  /\ BlinkData.link a = BlinkData.link b.

(** Two states of the backing file that differ only in the [publicKey]
    fields of their records. *)
Definition differOnlyInOwners (f g : FileState) : Prop :=
  match f, g with
  | FilePresent (Document d), FilePresent (Document e) =>
      Forall2 sameButOwner (blinks d) (blinks e)
  | FilePresent Garbage, FilePresent Garbage => True
  | FileMissing, FileMissing => True
  | FileUnreadable, FileUnreadable => True
  | _, _ => False
  end.

(** What every store built by registrations satisfies: routes are
    pairwise distinct, and each is the route derived from the record's
    name. *)
Definition storeInv (f : FileState) : Prop :=
  NoDup (map BlinkData.route (blinks (readData f)))
  /\ Forall (fun b => BlinkData.route b = deriveRoute (BlinkData.channelName b))
            (blinks (readData f)).

(** The channels of a store whose name is white space only. *)
Definition whiteSpaceOnlyChannels (f : FileState) : list BlinkData.t :=
  filter (fun b => whiteSpaceOnly (BlinkData.channelName b)) (blinks (readData f)).

Section Vocabulary.

Context {P : Platform}.

(** [new PublicKey(publicKey)] does not throw (lines 123-128). *)
Definition keyParses (publicKey : jsstring) : bool :=
  match newPublicKey publicKey with
  | inr _ => true
  | inl _ => false
  end.

(** The tests of the registration handler in the order in which it runs
    them, each with the message it answers when the test fails. *)
Definition checks (req : BlinkRequest.t) : list (bool * jsstring) :=
  [ (validateChannelName (BlinkRequest.channelName req), msgInvalidName);
    (descriptionOk (BlinkRequest.description req), msgInvalidDescription);
    (feeOk (BlinkRequest.fee req), msgInvalidFee);
    (keyPresent (BlinkRequest.publicKey req), msgKeyRequired);
    (coverOk (BlinkRequest.coverImage req), msgInvalidCover);
    (isValidTelegramLink (BlinkRequest.telegramLink req), msgInvalidTelegram);
    (keyParses (BlinkRequest.publicKey req), msgInvalidKey) ].

Definition firstFailure (l : list (bool * jsstring)) : option jsstring :=
  option_map snd (find (fun c => negb (fst c)) l).

(** A request that passes every test. *)
Definition validRequest (req : BlinkRequest.t) : bool :=
  forallb fst (checks req).

(** The precedence the specification documents: name, description, fee,
    address (present and well formed), cover image, contact link. *)
Definition documentedChecks (req : BlinkRequest.t) : list (bool * jsstring) :=
  [ (validateChannelName (BlinkRequest.channelName req), msgInvalidName);
    (descriptionOk (BlinkRequest.description req), msgInvalidDescription);
    (feeOk (BlinkRequest.fee req), msgInvalidFee);
    (keyPresent (BlinkRequest.publicKey req), msgKeyRequired);
    (keyParses (BlinkRequest.publicKey req), msgInvalidKey);
    (coverOk (BlinkRequest.coverImage req), msgInvalidCover);
    (isValidTelegramLink (BlinkRequest.telegramLink req), msgInvalidTelegram) ].

(** The store after a sequence of registration requests, each with the
    clock, environment and disk it meets. *)
Definition registerAll (f : FileState) (reqs : list (Env * BlinkRequest.t)) : FileState :=
  fold_left (fun f er => snd (postBlinkCreate (fst er) f (snd er))) reqs f.

(** The description test as the specification words it: the trimmed length
    lies in [10, 1000]. *)
Definition documentedDescriptionOk (description : jsstring) : bool :=
  (10 <=? List.length (trim description)) && (List.length (trim description) <=? 1000).

End Vocabulary.

(** The name as it stands in the route: lower-cased, white-space runs
    turned into hyphens. *)
Definition slug (name : jsstring) : jsstring :=
  replaceWhiteSpaceRuns (toLowerCase name).

(** A unit that lower-casing and the replacement of white space leave
    alone. *)
Definition isPlainUnit (c : codeunit) : bool :=
  negb (isWhiteSpace c) && negb (isUpper c).

(** The units a route is made of after [/api/]. *)
Definition isSlugUnit (c : codeunit) : bool :=
  isLower c || isDigit c || (c =? hyphen)%N || (c =? underscore)%N.

(** Two records that agree on what the GET handler shows and looks up:
    route, coverImage, channelName, description. *)
Definition sameFace (a b : BlinkData.t) : Prop :=
  BlinkData.route a = BlinkData.route b
  /\ BlinkData.coverImage a = BlinkData.coverImage b
  /\ BlinkData.channelName a = BlinkData.channelName b
  /\ BlinkData.description a = BlinkData.description b.

(** Two states of the backing file whose records agree, one by one, on
    route, coverImage, channelName and description. *)
Definition sameFaces (f g : FileState) : Prop :=
  Forall2 sameFace (blinks (readData f)) (blinks (readData g)).

(** Is the fee test passed by the whole number [n] exactly when
    [1 <= n <= 1000]? *)
Definition wholeFeeTested (n : Z) : bool :=
  Bool.eqb (feeOk (wholeNumber n)) ((1 <=? n)%Z && (n <=? 1000)%Z).

(* ===================================================================== *)
(** ** The registration form of the mobile client ([FormScreen.js]) *)
(* ===================================================================== *)

(** The state [formData] (lines 17-24): six text inputs. *)
Module FormData.
Record t := mk {
  channelName : jsstring;
  description : jsstring;
  fee : jsstring;
  publicKey : jsstring;
  coverImage : jsstring;
  link : jsstring
}.
End FormData.

(** The object [newErrors]: a message under each key that was set. *)
Module FormErrors.
Record t := mk {
  channelName : option jsstring;
  description : option jsstring;
  fee : option jsstring;
  publicKey : option jsstring;
  coverImage : option jsstring;
  link : option jsstring
}.
Definition none : t := mk None None None None None None.
End FormErrors.

(** [LineTerminator]: what [.] does not match in a regular expression
    without the [s] flag. *)
Definition isLineTerminator (c : codeunit) : bool :=
  ((c =? 10) || (c =? 13) || (c =? 8232) || (c =? 8233))%N.

(** [/^https?:\/\/.+/.test(s)]: [http://] or [https://] at the start,
    followed by at least one unit that is not a line terminator. *)
Definition testHttpPrefix (s : jsstring) : bool :=
  let next (rest : jsstring) :=
    match rest with
    | c :: _ => negb (isLineTerminator c)
    | [] => false
    end in
  if startsWith s (js "https://") then next (skipn 8 s)
  else if startsWith s (js "http://") then next (skipn 7 s)
  else false.

(** [s.includes(sub)]: [sub] occurs somewhere in [s]. *)
Fixpoint includes (s sub : jsstring) : bool :=
  startsWith s sub
  || match s with
     | [] => false
     | _ :: t => includes t sub
     end.

(** [/(t\.me|telegram\.me)/.test(s)]: an unanchored search. *)
Definition testTelegram (s : jsstring) : bool :=
  includes s (js "t.me") || includes s (js "telegram.me").

(** The six tests of [validateForm] (lines 33-61), each [true] when the
    field is refused.  [parseFloat] is the built-in, applied to the text of
    the fee input. *)
Definition formNameRefused (name : jsstring) : bool :=
  negb (truthy (Some (trim name))) || negb (validateChannelName name).

Definition formDescriptionRefused (d : jsstring) : bool :=
  negb (truthy (Some (trim d)))
  || (List.length (trim d) <? 10) || (1000 <? List.length d).

Definition formFeeRefused (feeValue : float) : bool :=
  is_nan feeValue || (feeValue <=? 0)%float || (1000 <? feeValue)%float.

Definition formKeyRefused (k : jsstring) : bool :=
  negb (truthy (Some (trim k))).

Definition formCoverRefused (c : jsstring) : bool :=
  truthy (Some c) && negb (testHttpPrefix c).

Definition formLinkRefused (l : jsstring) : bool :=
  negb (truthy (Some (trim l))) || negb (testTelegram l).

(** One [if (...) { newErrors.key = message; isValid = false; }]. *)
Definition refuse (refused : bool) (set : FormErrors.t -> FormErrors.t)
    (st : FormErrors.t * bool) : FormErrors.t * bool :=
  if refused then (set (fst st), false) else st.

(** [validateForm] (lines 29-65): the object handed to [setErrors], and the
    value returned. *)
Definition validateForm (parseFloat : jsstring -> float) (formData : FormData.t)
  : FormErrors.t * bool :=
  let st := (FormErrors.none, true) in
  let st := refuse (formNameRefused (FormData.channelName formData))
    (fun e => FormErrors.mk
       (Some (js "Channel name must be 3-50 characters and can only contain letters, numbers, spaces, hyphens, and underscores"))
       (FormErrors.description e) (FormErrors.fee e) (FormErrors.publicKey e)
       (FormErrors.coverImage e) (FormErrors.link e)) st in
  let st := refuse (formDescriptionRefused (FormData.description formData))
    (fun e => FormErrors.mk (FormErrors.channelName e)
       (Some (js "Description must be between 10 and 1000 characters"))
       (FormErrors.fee e) (FormErrors.publicKey e)
       (FormErrors.coverImage e) (FormErrors.link e)) st in
  let feeValue := parseFloat (FormData.fee formData) in
  let st := refuse (formFeeRefused feeValue)
    (fun e => FormErrors.mk (FormErrors.channelName e) (FormErrors.description e)
       (Some (js "Fee must be between 0 and 1000 SOL"))
       (FormErrors.publicKey e) (FormErrors.coverImage e) (FormErrors.link e)) st in
  let st := refuse (formKeyRefused (FormData.publicKey formData))
    (fun e => FormErrors.mk (FormErrors.channelName e) (FormErrors.description e)
       (FormErrors.fee e)
       (Some (js "Solana public key is required"))
       (FormErrors.coverImage e) (FormErrors.link e)) st in
  let st := refuse (formCoverRefused (FormData.coverImage formData))
    (fun e => FormErrors.mk (FormErrors.channelName e) (FormErrors.description e)
       (FormErrors.fee e) (FormErrors.publicKey e)
       (Some (js "Cover image must be a valid URL starting with http:// or https://"))
       (FormErrors.link e)) st in
  let st := refuse (formLinkRefused (FormData.link formData))
    (fun e => FormErrors.mk (FormErrors.channelName e) (FormErrors.description e)
       (FormErrors.fee e) (FormErrors.publicKey e) (FormErrors.coverImage e)
       (Some (js "Must be a valid Telegram link (t.me or telegram.me)"))) st in
  st.

(* ===================================================================== *)
(** ** The earlier payment handler ([src/unnamed/part_000], lines 471-539) *)
(* ===================================================================== *)

(** [MEMO_PROGRAM_ID], the constant exported by [@solana/actions]. *)
Definition MEMO_PROGRAM_ID : jsstring :=
  js "MemoSq4gqABAXKb96qnH8TysNcWxMyWCqXgDLGmfcHr".

Module Earlier.

(** The object whose [JSON.stringify] text is the data of the memo
    instruction. *)
Record Memo := {
  action : jsstring;
  channelName : jsstring;
  description : jsstring;
  fee : float
}.

(** The three instructions the handler adds. *)
Inductive TxInstruction :=
| Transfer (i : Instruction)
    (* SystemProgram.transfer({ fromPubkey, toPubkey, lamports }) *)
| SetComputeUnitPrice (microLamports : N)
    (* ComputeBudgetProgram.setComputeUnitPrice({ microLamports }) *)
| MemoInstruction (programId : PublicKey) (data : Memo).
    (* new TransactionInstruction({ keys: [], programId, data }) *)

Record Transaction := {
  feePayer : PublicKey;
  recentBlockhash : jsstring;
  instructions : list TxInstruction
}.

Inductive Response :=
| JsonError (status : nat) (error : jsstring)
| ActionPost (transaction : Transaction) (message channelLink telegramLink : jsstring).
    (* res.json({ ...postResponse, channelLink, telegramLink }) *)

End Earlier.

Section EarlierHandler.

Context {P : Platform}.

(** The [catch] of lines 533-538. *)
Definition earlierCatch (error : Thrown) : Earlier.Response :=
  match error with
  | ErrorObject message => Earlier.JsonError 400 message
  | NonError => Earlier.JsonError 500 (js "Internal server error")
  end.

(** [app.post('/api/:channelName')] of the earlier server (lines 471-539):
    no test of the account before the lookup, no balance request, and a
    compute-unit price and a memo after the transfer. *)
Definition earlierPostChannel (ledger : Ledger) (f : FileState)
    (channelName : jsstring) (account : option jsstring) : Earlier.Response :=
  if negb (truthy account) then
    Earlier.JsonError 400 (js "Account is required")
  else
    match resolve f channelName with
    | None => Earlier.JsonError 404 msgNotFound
    | Some blink =>
        match newPublicKey (orElse account []) with
        | inl error => earlierCatch error
        | inr accountPubKey =>
        match newPublicKey (BlinkData.publicKey blink) with
        | inl error => earlierCatch error
        | inr recipientPubKey =>
        match SystemProgram_transfer accountPubKey recipientPubKey
                (BlinkData.fee blink * LAMPORTS_PER_SOL)%float with
        | inl error => earlierCatch error
        | inr transfer =>
        match newPublicKey MEMO_PROGRAM_ID with
        | inl error => earlierCatch error
        | inr memoProgram =>
        match getLatestBlockhash ledger with
        | inl error => earlierCatch error
        | inr blockhash =>
            Earlier.ActionPost
              {| Earlier.feePayer := accountPubKey;
                 Earlier.recentBlockhash := blockhash;
                 Earlier.instructions :=
                   [ Earlier.Transfer transfer;
                     Earlier.SetComputeUnitPrice 1000000;
                     Earlier.MemoInstruction memoProgram
                       {| Earlier.action := js "create-blink";
                          Earlier.channelName := BlinkData.channelName blink;
                          Earlier.description := js "Thanks for joining!";
                          Earlier.fee := BlinkData.fee blink |} ] |}
              (thanks blink) (BlinkData.link blink) (BlinkData.telegramLink blink)
        end end end end end
    end.

End EarlierHandler.

Section StoredChannels.

Context {P : Platform}.

(** What registration checks of a request, read on the record it stores. *)
Definition wellFormedChannel (b : BlinkData.t) : Prop :=
  validateChannelName (BlinkData.channelName b) = true
  /\ BlinkData.route b = deriveRoute (BlinkData.channelName b)
  /\ descriptionOk (BlinkData.description b) = true
  /\ feeOk (BlinkData.fee b) = true
  /\ isValidTelegramLink (BlinkData.telegramLink b) = true
  /\ BlinkData.coverImage b <> []
  /\ (BlinkData.coverImage b = defaultCover \/ isValidUrl (BlinkData.coverImage b) = true)
  /\ exists pubKey, BlinkData.publicKey b = publicKeyToString pubKey.

End StoredChannels.

(* ===================================================================== *)
(** ** Strings and routes *)
(* ===================================================================== *)

Lemma eqs_true_iff (a b : jsstring) : eqs a b = true <-> a = b.
Proof.
  unfold eqs. destruct (list_eq_dec N.eq_dec a b); split;
    congruence || discriminate.
Qed.

Lemma eqs_refl (a : jsstring) : eqs a a = true.
Proof. now apply eqs_true_iff. Qed.

Lemma eqs_false_iff (a b : jsstring) : eqs a b = false <-> a <> b.
Proof.
  unfold eqs. destruct (list_eq_dec N.eq_dec a b); split;
    congruence || discriminate || tauto.
Qed.

(** White space lies outside the printable ASCII range. *)
Lemma isWhiteSpace_range (c : codeunit) :
  isWhiteSpace c = true -> (c <= 32 \/ 160 <= c)%N.
Proof.
  unfold isWhiteSpace.
  rewrite !orb_true_iff, !andb_true_iff, !N.eqb_eq, !N.leb_le. lia.
Qed.

Lemma isUpper_range (c : codeunit) : isUpper c = true <-> (65 <= c <= 90)%N.
Proof. unfold isUpper. rewrite andb_true_iff, !N.leb_le. tauto. Qed.

Lemma not_isWhiteSpace (c : codeunit) :
  (32 < c < 160)%N -> isWhiteSpace c = false.
Proof.
  intros H. destruct (isWhiteSpace c) eqn:E; [|reflexivity].
  apply isWhiteSpace_range in E. lia.
Qed.

(** Lower-casing neither makes nor removes white space. *)
Lemma isWhiteSpace_toLowerUnit (c : codeunit) :
  isWhiteSpace (toLowerUnit c) = isWhiteSpace c.
Proof.
  unfold toLowerUnit. destruct (isUpper c) eqn:U; [|reflexivity].
  apply isUpper_range in U.
  rewrite !not_isWhiteSpace; [reflexivity | lia | lia].
Qed.

Lemma toLowerUnit_space (c : codeunit) :
  isWhiteSpace c = true -> toLowerUnit c = c.
Proof.
  intros W. unfold toLowerUnit. destruct (isUpper c) eqn:U; [|reflexivity].
  apply isUpper_range in U. apply isWhiteSpace_range in W. lia.
Qed.

Lemma replaceWhiteSpaceRuns_space (c : codeunit) (s : jsstring) :
  isWhiteSpace c = true ->
  replaceWhiteSpaceRuns (c :: s) =
    if startsWithSpace s then replaceWhiteSpaceRuns s
    else hyphen :: replaceWhiteSpaceRuns s.
Proof. intros W. simpl. rewrite W. destruct s; reflexivity. Qed.

Lemma replaceWhiteSpaceRuns_unit (c : codeunit) (s : jsstring) :
  isWhiteSpace c = false ->
  replaceWhiteSpaceRuns (c :: s) = c :: replaceWhiteSpaceRuns s.
Proof. intros W. simpl. now rewrite W. Qed.

(** The scan agrees with the regular expression: a run is consumed whole
    and replaced by one hyphen. *)
Lemma replaceWhiteSpaceRuns_run (c : codeunit) (s : jsstring) :
  isWhiteSpace c = true ->
  replaceWhiteSpaceRuns (c :: s) =
    hyphen :: replaceWhiteSpaceRuns (dropWhile isWhiteSpace s).
Proof.
  revert c. induction s as [|d s IH]; intros c W.
  - simpl. now rewrite W.
  - rewrite replaceWhiteSpaceRuns_space by assumption.
    simpl startsWithSpace. simpl dropWhile.
    destruct (isWhiteSpace d) eqn:D.
    + now apply IH.
    + reflexivity.
Qed.

Lemma startsWithSpace_toLowerCase (s : jsstring) :
  startsWithSpace (toLowerCase s) = startsWithSpace s.
Proof. destruct s; simpl; [reflexivity | apply isWhiteSpace_toLowerUnit]. Qed.

Lemma sameUpToCaseAndSpacing_head (a b : jsstring) :
  sameUpToCaseAndSpacing a b -> startsWithSpace a = startsWithSpace b.
Proof.
  induction 1; simpl in *; congruence.
Qed.

Lemma sameUpToCaseAndSpacing_replace (a b : jsstring) :
  sameUpToCaseAndSpacing a b ->
  replaceWhiteSpaceRuns (toLowerCase a) = replaceWhiteSpaceRuns (toLowerCase b).
Proof.
  induction 1 as [ | c d s t Wc Wd L _ IH | c d s t Wc Wd R IH
                 | c c' s t Wc Wc' _ IH | d d' s t Wd Wd' _ IH ].
  - reflexivity.
  - simpl toLowerCase.
    rewrite !replaceWhiteSpaceRuns_unit
      by (rewrite isWhiteSpace_toLowerUnit; assumption).
    now rewrite L, IH.
  - simpl toLowerCase.
    rewrite !replaceWhiteSpaceRuns_space
      by (rewrite isWhiteSpace_toLowerUnit; assumption).
    fold (toLowerCase s). fold (toLowerCase t).
    rewrite !startsWithSpace_toLowerCase.
    rewrite (sameUpToCaseAndSpacing_head _ _ R), IH. reflexivity.
  - rewrite <- IH. simpl toLowerCase.
    rewrite (replaceWhiteSpaceRuns_space (toLowerUnit c))
      by (rewrite isWhiteSpace_toLowerUnit; assumption).
    simpl startsWithSpace. now rewrite isWhiteSpace_toLowerUnit, Wc'.
  - rewrite IH. simpl toLowerCase.
    rewrite (replaceWhiteSpaceRuns_space (toLowerUnit d))
      by (rewrite isWhiteSpace_toLowerUnit; assumption).
    simpl startsWithSpace. now rewrite isWhiteSpace_toLowerUnit, Wd'.
Qed.

(** Route derivation does not see letter case nor the length of
    white-space runs. *)
Lemma deriveRoute_insensitive (a b : jsstring) :
  sameUpToCaseAndSpacing a b -> deriveRoute a = deriveRoute b.
Proof.
  intros H. unfold deriveRoute. f_equal.
  now apply sameUpToCaseAndSpacing_replace.
Qed.

(* ===================================================================== *)
(** ** The registry *)
(* ===================================================================== *)

Section Registry.

Context {P : Platform}.

Lemma find_app_none {A} (p : A -> bool) (l l' : list A) :
  existsb p l = false -> find p (l ++ l') = find p l'.
Proof.
  induction l as [|x l IH]; simpl; [reflexivity|].
  destruct (p x); simpl; [discriminate | exact IH].
Qed.

(** The seven tests, one by one. *)
Lemma validRequest_spec (req : BlinkRequest.t) :
  validRequest req = true <->
  validateChannelName (BlinkRequest.channelName req) = true
  /\ descriptionOk (BlinkRequest.description req) = true
  /\ feeOk (BlinkRequest.fee req) = true
  /\ keyPresent (BlinkRequest.publicKey req) = true
  /\ coverOk (BlinkRequest.coverImage req) = true
  /\ isValidTelegramLink (BlinkRequest.telegramLink req) = true
  /\ keyParses (BlinkRequest.publicKey req) = true.
Proof.
  unfold validRequest, checks. simpl. rewrite !andb_true_iff. tauto.
Qed.

(** What the handler does once every test has passed: the duplicate test,
    then the save. *)
Lemma postBlinkCreate_valid (env : Env) (f : FileState) (req : BlinkRequest.t) :
  validRequest req = true ->
  exists pubKey,
    newPublicKey (BlinkRequest.publicKey req) = inr pubKey
    /\ postBlinkCreate env f req =
       let route := deriveRoute (BlinkRequest.channelName req) in
       if existsb (fun b => eqs (BlinkData.route b) route) (blinks (readData f))
       then (JsonError 400 msgDuplicate, f)
       else match writeData (disk env) f
                    {| blinks := blinks (readData f) ++ [newBlink env req pubKey] |} with
            | (f', Some _) => (JsonError 500 msgSaving, f')
            | (f', None) => (Created route (BlinkRequest.channelName req), f')
            end.
Proof.
  intros V. apply validRequest_spec in V.
  destruct V as (V1 & V2 & V3 & V4 & V5 & V6 & V7).
  unfold keyParses in V7.
  destruct (newPublicKey (BlinkRequest.publicKey req)) as [t|pubKey] eqn:K;
    [discriminate|].
  exists pubKey. split; [reflexivity|].
  unfold postBlinkCreate. rewrite V1, V2, V3, V4, V5, V6, K. reflexivity.
Qed.

(** A request that fails a test is answered with the message of the first
    test it fails, and the backing file is not touched. *)
Lemma postBlinkCreate_invalid (env : Env) (f : FileState) (req : BlinkRequest.t)
    (msg : jsstring) :
  firstFailure (checks req) = Some msg ->
  postBlinkCreate env f req = (JsonError 400 msg, f).
Proof.
  unfold firstFailure, checks, postBlinkCreate, keyParses. simpl.
  destruct (validateChannelName _); simpl; [|now intros [= <-]].
  destruct (descriptionOk _); simpl; [|now intros [= <-]].
  destruct (feeOk _); simpl; [|now intros [= <-]].
  destruct (keyPresent _); simpl; [|now intros [= <-]].
  destruct (coverOk _); simpl; [|now intros [= <-]].
  destruct (isValidTelegramLink _); simpl; [|now intros [= <-]].
  destruct (newPublicKey _); simpl; [now intros [= <-] | discriminate].
Qed.

Lemma firstFailure_None (req : BlinkRequest.t) :
  firstFailure (checks req) = None <-> validRequest req = true.
Proof.
  rewrite validRequest_spec. unfold firstFailure, checks. simpl.
  destruct (validateChannelName _); simpl; [|intuition discriminate].
  destruct (descriptionOk _); simpl; [|intuition discriminate].
  destruct (feeOk _); simpl; [|intuition discriminate].
  destruct (keyPresent _); simpl; [|intuition discriminate].
  destruct (coverOk _); simpl; [|intuition discriminate].
  destruct (isValidTelegramLink _); simpl; [|intuition discriminate].
  destruct (keyParses _); simpl; intuition discriminate.
Qed.

(** Every way out of the handler. *)
Lemma postBlinkCreate_cases (env : Env) (f : FileState) (req : BlinkRequest.t) :
  (exists msg, firstFailure (checks req) = Some msg
               /\ postBlinkCreate env f req = (JsonError 400 msg, f))
  \/ (validRequest req = true
      /\ exists pubKey,
           newPublicKey (BlinkRequest.publicKey req) = inr pubKey
           /\ postBlinkCreate env f req =
              let route := deriveRoute (BlinkRequest.channelName req) in
              if existsb (fun b => eqs (BlinkData.route b) route) (blinks (readData f))
              then (JsonError 400 msgDuplicate, f)
              else match writeData (disk env) f
                           {| blinks := blinks (readData f) ++ [newBlink env req pubKey] |} with
                   | (f', Some _) => (JsonError 500 msgSaving, f')
                   | (f', None) => (Created route (BlinkRequest.channelName req), f')
                   end).
Proof.
  destruct (firstFailure (checks req)) as [msg|] eqn:F.
  - left. exists msg. split; [reflexivity|]. now apply postBlinkCreate_invalid.
  - right. apply firstFailure_None in F. split; [assumption|].
    now apply postBlinkCreate_valid.
Qed.

(** A registration answered with 201 went through every test, met no
    record with its route, and its save completed. *)
Lemma postBlinkCreate_Created (env : Env) (f f' : FileState) (req : BlinkRequest.t)
    (r n : jsstring) :
  postBlinkCreate env f req = (Created r n, f') ->
  validRequest req = true
  /\ r = deriveRoute (BlinkRequest.channelName req)
  /\ n = BlinkRequest.channelName req
  /\ existsb (fun b => eqs (BlinkData.route b) r) (blinks (readData f)) = false
  /\ disk env = WriteCompletes
  /\ exists pubKey,
       newPublicKey (BlinkRequest.publicKey req) = inr pubKey
       /\ f' = overwritten f
                 (Document {| blinks := blinks (readData f) ++ [newBlink env req pubKey] |}).
Proof.
  intros H.
  destruct (postBlinkCreate_cases env f req)
    as [(msg & _ & E) | (V & pubKey & K & E)]; rewrite E in H.
  - discriminate.
  - cbv zeta in H.
    destruct (existsb _ (blinks (readData f))) eqn:D; [discriminate|].
    destruct (disk env) eqn:W; simpl in H; try discriminate.
    injection H as <- <- <-. repeat split; try assumption; try reflexivity.
    exists pubKey. split; [assumption | reflexivity].
Qed.

Lemma readData_Document (d : StorageData) : readData (FilePresent (Document d)) = d.
Proof. reflexivity. Qed.

(** New text in a file that is missing or can be read is what the next
    read finds; new text in a file that cannot be read is not. *)
Lemma overwritten_canBeRead (f : FileState) (c : FileContent) :
  canBeRead f = true -> overwritten f c = FilePresent c.
Proof. destruct f; [reflexivity | reflexivity | discriminate]. Qed.

Lemma readData_overwritten (f : FileState) (d : StorageData) :
  readData (overwritten f (Document d))
  = if canBeRead f then d else {| blinks := [] |}.
Proof. destruct f; reflexivity. Qed.

Lemma readData_torn (f : FileState) :
  readData (overwritten f Garbage) = {| blinks := [] |}.
Proof. destruct f; reflexivity. Qed.

(** After a save that completed, the lookup by the registered name finds
    the record that was appended. *)
Lemma resolve_after_append (f : FileState) (b : BlinkData.t) (name : jsstring) :
  BlinkData.route b = deriveRoute name ->
  existsb (fun x => eqs (BlinkData.route x) (deriveRoute name)) (blinks (readData f)) = false ->
  resolve (FilePresent (Document {| blinks := blinks (readData f) ++ [b] |})) name = Some b.
Proof.
  intros R D. unfold resolve. rewrite readData_Document. simpl blinks.
  rewrite find_app_none by assumption. simpl. now rewrite R, eqs_refl.
Qed.

(** C1. On a backing file that is missing or can be read: a valid
    registration request whose route is free is answered with 201 when the
    save completes; and for every registration request that is answered
    with 201, looking the channel up by the same channelName in the store
    the registration leaves finds a record whose channelName, fee and
    publicKey are those of the request.  The handler stores the address as
    the SDK prints it back ([pubKey.toString()]); the second hypothesis says
    that the SDK prints an address it has parsed as it was given, which
    base58 does. *)
Theorem register_then_resolve
    (env : Env) (f : FileState) (req : BlinkRequest.t) :
  canBeRead f = true ->
  (forall pubKey, newPublicKey (BlinkRequest.publicKey req) = inr pubKey ->
                  publicKeyToString pubKey = BlinkRequest.publicKey req) ->
  (validRequest req = true ->
   existsb (fun b => eqs (BlinkData.route b) (deriveRoute (BlinkRequest.channelName req)))
           (blinks (readData f)) = false ->
   disk env = WriteCompletes ->
   exists f',
     postBlinkCreate env f req
     = (Created (deriveRoute (BlinkRequest.channelName req))
                (BlinkRequest.channelName req), f'))
  /\ forall (r n : jsstring) (f' : FileState),
       postBlinkCreate env f req = (Created r n, f') ->
       exists blink,
         resolve f' (BlinkRequest.channelName req) = Some blink
         /\ BlinkData.route blink = r
         /\ BlinkData.channelName blink = BlinkRequest.channelName req
         /\ BlinkData.fee blink = BlinkRequest.fee req
         /\ BlinkData.publicKey blink = BlinkRequest.publicKey req.
Proof.
  intros Readable Canon. split.
  - intros V D W.
    destruct (postBlinkCreate_valid env f req V) as (pubKey & _ & E).
    rewrite E. cbv zeta. rewrite D, W. simpl. eauto.
  - intros r n f' H.
    apply postBlinkCreate_Created in H.
    destruct H as (_ & -> & -> & D & _ & pubKey & K & ->).
    rewrite overwritten_canBeRead by assumption.
    exists (newBlink env req pubKey). split.
    + now apply resolve_after_append.
    + simpl. repeat split. now apply Canon.
Qed.

(** A valid request whose route is already in the store is answered with
    the duplicate message and the backing file is not touched. *)
Lemma postBlinkCreate_duplicate (env : Env) (f : FileState) (req : BlinkRequest.t) :
  validRequest req = true ->
  existsb (fun b => eqs (BlinkData.route b) (deriveRoute (BlinkRequest.channelName req)))
          (blinks (readData f)) = true ->
  postBlinkCreate env f req = (JsonError 400 msgDuplicate, f).
Proof.
  intros V D. destruct (postBlinkCreate_valid env f req V) as (pubKey & _ & E).
  rewrite E. cbv zeta. now rewrite D.
Qed.

(** C2. Route derivation sends two names that differ only in letter case
    or in the length of their white-space runs to the same route; and when
    a channel has been registered under the first name, on a backing file
    that is missing or can be read, a valid request under the second is
    answered with the duplicate-channel error and leaves the store as it
    was. *)
Theorem colliding_names_rejected (a b : jsstring) :
  sameUpToCaseAndSpacing a b ->
  deriveRoute a = deriveRoute b
  /\ forall (env1 env2 : Env) (f0 f1 : FileState) (req1 req2 : BlinkRequest.t)
            (r n : jsstring),
       canBeRead f0 = true ->
       BlinkRequest.channelName req1 = a ->
       BlinkRequest.channelName req2 = b ->
       postBlinkCreate env1 f0 req1 = (Created r n, f1) ->
       validRequest req2 = true ->
       postBlinkCreate env2 f1 req2 = (JsonError 400 msgDuplicate, f1).
Proof.
  intros S. pose proof (deriveRoute_insensitive a b S) as R.
  split; [exact R|].
  intros env1 env2 f0 f1 req1 req2 r n Readable <- <- H V.
  apply postBlinkCreate_Created in H.
  destruct H as (_ & -> & _ & _ & _ & pubKey & _ & ->).
  rewrite overwritten_canBeRead by assumption.
  apply postBlinkCreate_duplicate; [assumption|].
  rewrite readData_Document. simpl blinks.
  rewrite existsb_app. apply orb_true_iff. right.
  simpl. now rewrite R, eqs_refl.
Qed.

End Registry.

Lemma register_then_resolve_witness :
  @postBlinkCreate Reference.platform (Sample.env WriteCompletes) FileMissing
    (Sample.request "Test Show" 0.5%float)
  = (Created (js "/api/test-show") (js "Test Show"),
     Sample.storeWith "Test Show" 0.5%float)
  /\ exists blink,
       resolve (Sample.storeWith "Test Show" 0.5%float) (js "Test Show") = Some blink
       /\ BlinkData.route blink = js "/api/test-show"
       /\ BlinkData.channelName blink = js "Test Show"
       /\ BlinkData.fee blink = 0.5%float
       /\ BlinkData.publicKey blink = Sample.owner.
Proof.
  assert (Canon : forall pubKey,
             @newPublicKey Reference.platform Sample.owner = inr pubKey ->
             @publicKeyToString Reference.platform pubKey = Sample.owner).
  { intros pubKey K. vm_compute in K. injection K as <-. vm_compute. reflexivity. }
  destruct (@register_then_resolve Reference.platform
              (Sample.env WriteCompletes) FileMissing
              (Sample.request "Test Show" 0.5%float) eq_refl Canon) as [_ After].
  split.
  - vm_compute. reflexivity.
  - apply (After (js "/api/test-show") (js "Test Show")
                 (Sample.storeWith "Test Show" 0.5%float)).
    vm_compute. reflexivity.
Defined.

Lemma colliding_names_rejected_witness :
  deriveRoute (js "My Channel") = deriveRoute (js "my   channel")
  /\ @postBlinkCreate Reference.platform (Sample.env WriteCompletes)
       (Sample.storeWith "My Channel" 0.5%float)
       (Sample.request "my   channel" 2%float)
     = (JsonError 400 msgDuplicate, Sample.storeWith "My Channel" 0.5%float).
Proof.
  assert (S : sameUpToCaseAndSpacing (js "My Channel") (js "my   channel")).
  { vm_compute.
    repeat first
      [ apply same_end
      | apply same_unit; [reflexivity | reflexivity | reflexivity | ]
      | apply same_longer_right; [reflexivity | reflexivity | ]
      | apply same_longer_left; [reflexivity | reflexivity | ]
      | apply same_space; [reflexivity | reflexivity | ] ]. }
  destruct (@colliding_names_rejected Reference.platform _ _ S) as [R D].
  split; [exact R|].
  apply (D (Sample.env WriteCompletes) (Sample.env WriteCompletes) FileMissing
           (Sample.storeWith "My Channel" 0.5%float)
           (Sample.request "My Channel" 0.5%float)
           (Sample.request "my   channel" 2%float)
           (js "/api/my-channel") (js "My Channel")).
  - reflexivity.
  - reflexivity.
  - reflexivity.
  - vm_compute. reflexivity.
  - vm_compute. reflexivity.
Defined.

(* ===================================================================== *)
(** ** Validation *)
(* ===================================================================== *)

Section Validation.

Context {P : Platform}.

(** C3 (as the code has it). A request that fails at least one test is
    answered with the message of the first test it fails in the order
    name, description, fee, address present, cover image, contact link,
    address well formed, and the store is not touched; in particular a
    request that passes the first four tests and carries an invalid cover
    image is answered with the cover-image error whether or not its
    address is well formed. *)
Theorem first_failing_check_answers
    (env : Env) (f : FileState) (req : BlinkRequest.t) (msg : jsstring) :
  firstFailure (checks req) = Some msg ->
  postBlinkCreate env f req = (JsonError 400 msg, f)
  /\ (validateChannelName (BlinkRequest.channelName req) = true ->
      descriptionOk (BlinkRequest.description req) = true ->
      feeOk (BlinkRequest.fee req) = true ->
      keyPresent (BlinkRequest.publicKey req) = true ->
      coverOk (BlinkRequest.coverImage req) = false ->
      msg = msgInvalidCover).
Proof.
  intros F. split.
  - now apply postBlinkCreate_invalid.
  - intros V1 V2 V3 V4 V5. revert F.
    unfold firstFailure, checks. simpl. rewrite V1, V2, V3, V4, V5. simpl.
    now intros [= <-].
Qed.

Lemma trim_repeat (c : codeunit) (n : nat) :
  isWhiteSpace c = false -> trim (repeat c n) = repeat c n.
Proof.
  intros W.
  assert (D : forall k, dropWhile isWhiteSpace (repeat c k) = repeat c k).
  { intros [|k]; simpl; [reflexivity | now rewrite W]. }
  unfold trim, trimEnd, trimStart.
  now rewrite D, rev_repeat, D, rev_repeat.
Qed.

Lemma descriptionOk_spec (d : jsstring) :
  descriptionOk d = true <->
  10 <= List.length (trim d) /\ List.length d <= 1000.
Proof.
  unfold descriptionOk.
  rewrite negb_true_iff, orb_false_iff, !Nat.ltb_ge. tauto.
Qed.

Lemma messages_differ :
  msgInvalidFee <> msgInvalidDescription
  /\ msgKeyRequired <> msgInvalidDescription
  /\ msgInvalidCover <> msgInvalidDescription
  /\ msgInvalidTelegram <> msgInvalidDescription
  /\ msgInvalidKey <> msgInvalidDescription
  /\ msgDuplicate <> msgInvalidDescription.
Proof. repeat split; intros H; vm_compute in H; discriminate H. Qed.

(** C7 (as the code has it). Once the name has passed, a request is
    answered with the description error exactly when the trimmed length of
    its description is below 10 or the untrimmed length is above 1000; for
    a description of [n] equal units that are not white space this rejects
    [n = 9] and [n = 1001] and accepts [n = 10] and [n = 1000]. *)
Theorem description_bounds
    (env : Env) (f : FileState) (req : BlinkRequest.t) :
  validateChannelName (BlinkRequest.channelName req) = true ->
  (fst (postBlinkCreate env f req) = JsonError 400 msgInvalidDescription
   <-> ~ (10 <= List.length (trim (BlinkRequest.description req))
          /\ List.length (BlinkRequest.description req) <= 1000))
  /\ (forall c : codeunit, isWhiteSpace c = false ->
        descriptionOk (repeat c 9) = false
        /\ descriptionOk (repeat c 10) = true
        /\ descriptionOk (repeat c 1000) = true
        /\ descriptionOk (repeat c 1001) = false).
Proof.
  intros V. split.
  - rewrite <- descriptionOk_spec.
    destruct (descriptionOk (BlinkRequest.description req)) eqn:D.
    + split; [|intros H; now elim H].
      intros H. exfalso.
      destruct messages_differ as (M1 & M2 & M3 & M4 & M5 & M6).
      destruct (postBlinkCreate_cases env f req)
        as [(msg & F & E) | (_ & pubKey & _ & E)]; rewrite E in H.
      * simpl in H. injection H as H. subst msg. revert F.
        unfold firstFailure, checks. simpl. rewrite V, D. simpl.
        destruct (feeOk _); simpl; [|intros [= F]; now apply M1].
        destruct (keyPresent _); simpl; [|intros [= F]; now apply M2].
        destruct (coverOk _); simpl; [|intros [= F]; now apply M3].
        destruct (isValidTelegramLink _); simpl; [|intros [= F]; now apply M4].
        destruct (keyParses _); simpl; [discriminate | intros [= F]; now apply M5].
      * cbv zeta in H.
        destruct (existsb _ _).
        -- simpl in H. injection H as H. now apply M6.
        -- destruct (writeData _ _ _) as [f' [t|]]; simpl in H; discriminate.
    + split; [intros _; discriminate|]. intros _.
      unfold postBlinkCreate. now rewrite V, D.
  - intros c W. unfold descriptionOk.
    rewrite !trim_repeat, !repeat_length by assumption. repeat split.
Qed.

End Validation.

Lemma first_failing_check_answers_witness :
  @postBlinkCreate Reference.platform (Sample.env WriteCompletes) FileMissing
    Sample.badKeyAndCover
  = (JsonError 400 msgInvalidCover, FileMissing).
Proof.
  apply (@first_failing_check_answers Reference.platform
           (Sample.env WriteCompletes) FileMissing Sample.badKeyAndCover
           msgInvalidCover).
  vm_compute. reflexivity.
Defined.

(** C3 as stated fails: with a malformed, non-empty owner address and a
    cover image that is not a URL, the documented precedence puts the
    address error first, and the handler answers with the cover-image
    error. *)
Lemma documented_precedence_fails :
  keyPresent (BlinkRequest.publicKey Sample.badKeyAndCover) = true
  /\ @keyParses Reference.platform (BlinkRequest.publicKey Sample.badKeyAndCover) = false
  /\ @coverOk Reference.platform (BlinkRequest.coverImage Sample.badKeyAndCover) = false
  /\ firstFailure (@documentedChecks Reference.platform Sample.badKeyAndCover)
     = Some msgInvalidKey
  /\ fst (@postBlinkCreate Reference.platform (Sample.env WriteCompletes) FileMissing
            Sample.badKeyAndCover)
     = JsonError 400 msgInvalidCover
  /\ JsonError 400 msgInvalidCover <> JsonError 400 msgInvalidKey.
Proof.
  repeat split; try (vm_compute; reflexivity).
  intros H. vm_compute in H. discriminate H.
Qed.

Lemma description_bounds_witness :
  (fst (@postBlinkCreate Reference.platform (Sample.env WriteCompletes) FileMissing
          (Sample.requestDescribed (js "too short")))
   = JsonError 400 msgInvalidDescription
   <-> ~ (10 <= List.length (trim (js "too short"))
          /\ List.length (js "too short") <= 1000))
  /\ (forall c : codeunit, isWhiteSpace c = false ->
        descriptionOk (repeat c 9) = false
        /\ descriptionOk (repeat c 10) = true
        /\ descriptionOk (repeat c 1000) = true
        /\ descriptionOk (repeat c 1001) = false).
Proof.
  apply (@description_bounds Reference.platform (Sample.env WriteCompletes)
           FileMissing (Sample.requestDescribed (js "too short"))).
  vm_compute. reflexivity.
Defined.

(** C7 as stated fails: a description of 1000 letters and a trailing space
    has trimmed length 1000, inside [10, 1000], and is rejected with the
    description error. *)
Lemma trimmed_length_not_decisive :
  List.length (trim Sample.paddedDescription) = 1000
  /\ documentedDescriptionOk Sample.paddedDescription = true
  /\ @postBlinkCreate Reference.platform (Sample.env WriteCompletes) FileMissing
       (Sample.requestDescribed Sample.paddedDescription)
     = (JsonError 400 msgInvalidDescription, FileMissing).
Proof. repeat split; vm_compute; reflexivity. Qed.

(* ===================================================================== *)
(** ** The record store *)
(* ===================================================================== *)

Section Storage.

Context {P : Platform}.

Lemma find_none_existsb {A} (p : A -> bool) (l : list A) :
  existsb p l = false -> find p l = None.
Proof.
  induction l as [|x l IH]; simpl; [reflexivity|].
  destruct (p x); simpl; [discriminate | exact IH].
Qed.

(** A save that fails leaves the file as it was, or one that reads as the
    empty collection. *)
Lemma writeData_fails (d : WriteOutcome) (f : FileState) (data : StorageData) :
  d <> WriteCompletes ->
  exists t f', writeData d f data = (f', Some t)
               /\ (f' = f \/ readData f' = {| blinks := [] |})
               /\ (d = WriteRefused -> f' = f).
Proof.
  intros N. destruct d; [now elim N | |]; simpl; eauto 6.
  do 2 eexists. split; [reflexivity|].
  split; [right; apply readData_torn | discriminate].
Qed.

(** C4 (as the code has it). When the save step of a registration fails,
    the handler answers with the storage-write error and no later load
    observes the appended record: the lookup by the new name finds nothing
    and every record a later load returns was there before the call.  The
    store reads exactly as before the call when the failed write left the
    bytes of the backing file untouched. *)
Theorem failed_save_hides_record
    (env : Env) (f : FileState) (req : BlinkRequest.t) :
  validRequest req = true ->
  existsb (fun b => eqs (BlinkData.route b) (deriveRoute (BlinkRequest.channelName req)))
          (blinks (readData f)) = false ->
  disk env <> WriteCompletes ->
  let f' := snd (postBlinkCreate env f req) in
  fst (postBlinkCreate env f req) = JsonError 500 msgSaving
  /\ resolve f' (BlinkRequest.channelName req) = None
  /\ (forall b, In b (blinks (readData f')) -> In b (blinks (readData f)))
  /\ (disk env = WriteRefused -> f' = f /\ readData f' = readData f).
Proof.
  intros V D W. cbv zeta.
  destruct (postBlinkCreate_valid env f req V) as (pubKey & _ & E).
  rewrite E. cbv zeta. rewrite D.
  destruct (writeData_fails (disk env) f
              {| blinks := blinks (readData f) ++ [newBlink env req pubKey] |} W)
    as (t & f' & Ew & [-> | Empty] & R); rewrite Ew; simpl.
  - split; [reflexivity|]. split; [|split].
    + unfold resolve. now apply find_none_existsb.
    + intros b H. exact H.
    + intros _. split; reflexivity.
  - split; [reflexivity|]. split; [|split].
    + unfold resolve. now rewrite Empty.
    + rewrite Empty. intros b [].
    + intros Wr. rewrite (R Wr). split; reflexivity.
Qed.

(** A registration that meets a file it cannot read or parse goes through
    as on an empty store, and writes the new record alone. *)
Lemma postBlinkCreate_over_lost_file (env : Env) (f : FileState) (req : BlinkRequest.t) :
  f = FilePresent Garbage \/ f = FileUnreadable ->
  validRequest req = true -> disk env = WriteCompletes ->
  exists blink,
    postBlinkCreate env f req
    = (Created (deriveRoute (BlinkRequest.channelName req))
               (BlinkRequest.channelName req),
       overwritten f (Document {| blinks := [blink] |})).
Proof.
  intros F V W.
  destruct (postBlinkCreate_valid env f req V) as (pubKey & _ & E).
  exists (newBlink env req pubKey). rewrite E.
  destruct F as [-> | ->]; simpl; now rewrite W.
Qed.

Lemma map_summarize_sameButOwner (l l' : list BlinkData.t) :
  Forall2 sameButOwner l l' -> map summarize l = map summarize l'.
Proof.
  induction 1 as [|a b l l' (R & N & D & F & _ & C & _) _ IH]; simpl;
    [reflexivity|].
  f_equal; [|exact IH].
  unfold summarize. now rewrite R, N, D, F, C.
Qed.

(** C8. The listing does not depend on [publicKey]: two stores that differ
    only in the [publicKey] fields of their records are listed alike, each
    summary holding channelName, description, fee, route and createdAt. *)
Theorem listing_hides_owner (f g : FileState) :
  differOnlyInOwners f g -> getChannelsList f = getChannelsList g.
Proof.
  unfold getChannelsList.
  destruct f as [|[d|]|], g as [|[e|]|]; simpl; intros H;
    try contradiction; try reflexivity.
  f_equal. now apply map_summarize_sameButOwner.
Qed.

End Storage.

Lemma failed_save_hides_record_witness :
  let env := Sample.env WriteRefused in
  let f := Sample.storeWith "Test Show" 0.5%float in
  let req := Sample.request "Other Show" 1%float in
  let f' := snd (@postBlinkCreate Reference.platform env f req) in
  fst (@postBlinkCreate Reference.platform env f req) = JsonError 500 msgSaving
  /\ resolve f' (BlinkRequest.channelName req) = None
  /\ (forall b, In b (blinks (readData f')) -> In b (blinks (readData f)))
  /\ (disk env = WriteRefused -> f' = f /\ readData f' = readData f).
Proof.
  apply (@failed_save_hides_record Reference.platform
           (Sample.env WriteRefused) (Sample.storeWith "Test Show" 0.5%float)
           (Sample.request "Other Show" 1%float)).
  - vm_compute. reflexivity.
  - vm_compute. reflexivity.
  - simpl. discriminate.
Defined.

(** C4 as stated fails: a write that stops midway fails the save, and the
    next load finds the store empty, not as it was before the call. *)
Lemma torn_write_loses_store :
  let env := Sample.env WriteTorn in
  let f := Sample.storeWith "Test Show" 0.5%float in
  let req := Sample.request "Other Show" 1%float in
  fst (@postBlinkCreate Reference.platform env f req) = JsonError 500 msgSaving
  /\ List.length (blinks (readData f)) = 1
  /\ blinks (readData (snd (@postBlinkCreate Reference.platform env f req))) = []
  /\ readData (snd (@postBlinkCreate Reference.platform env f req)) <> readData f.
Proof.
  cbv zeta. split; [vm_compute; reflexivity|].
  split; [vm_compute; reflexivity|].
  split; [vm_compute; reflexivity|].
  intros H. apply (f_equal (fun d => List.length (blinks d))) in H.
  vm_compute in H. discriminate H.
Qed.

(** C6, on the code.  [readData] answers with the empty collection for a
    file that was never written, and just the same for a file that cannot
    be read and for a file whose text is not JSON; a registration that
    meets such a file is answered with 201 and replaces the file with the
    new record alone. *)
Theorem readData_swallows_every_failure :
  readData FileMissing = {| blinks := [] |}
  /\ readData FileUnreadable = {| blinks := [] |}
  /\ readData (FilePresent Garbage) = {| blinks := [] |}
  /\ exists blink,
       @postBlinkCreate Reference.platform (Sample.env WriteCompletes)
         (FilePresent Garbage) (Sample.request "Test Show" 0.5%float)
       = (Created (js "/api/test-show") (js "Test Show"),
          FilePresent (Document {| blinks := [blink] |})).
Proof.
  repeat split.
  destruct (@postBlinkCreate_over_lost_file Reference.platform
              (Sample.env WriteCompletes) (FilePresent Garbage)
              (Sample.request "Test Show" 0.5%float))
    as (blink & E); [now left | vm_compute; reflexivity | reflexivity |].
  exists blink. exact E.
Qed.

Lemma listing_hides_owner_witness :
  Sample.storeOwnedBy Sample.owner <> Sample.storeOwnedBy Sample.otherOwner
  /\ getChannelsList (Sample.storeOwnedBy Sample.owner)
     = getChannelsList (Sample.storeOwnedBy Sample.otherOwner).
Proof.
  split.
  - intros H. vm_compute in H. discriminate H.
  - apply (listing_hides_owner (Sample.storeOwnedBy Sample.owner)
                               (Sample.storeOwnedBy Sample.otherOwner)).
    vm_compute. repeat constructor.
Defined.

(* ===================================================================== *)
(** ** Names made of white space *)
(* ===================================================================== *)

Section WhiteSpaceNames.

Context {P : Platform}.

Lemma replaceWhiteSpaceRuns_all_space (s : jsstring) :
  s <> [] -> forallb isWhiteSpace s = true ->
  replaceWhiteSpaceRuns s = [hyphen].
Proof.
  induction s as [|c s IH]; intros N A; [now elim N|].
  simpl in A. apply andb_true_iff in A. destruct A as [W A].
  rewrite replaceWhiteSpaceRuns_space by assumption.
  destruct s as [|d s]; [reflexivity|].
  simpl startsWithSpace.
  simpl in A. apply andb_true_iff in A. destruct A as [Wd A].
  rewrite Wd. apply IH; [discriminate|]. simpl. now rewrite Wd, A.
Qed.

Lemma toLowerCase_all_space (s : jsstring) :
  forallb isWhiteSpace s = true -> toLowerCase s = s.
Proof.
  induction s as [|c s IH]; simpl; [reflexivity|].
  intros A. apply andb_true_iff in A. destruct A as [W A].
  now rewrite toLowerUnit_space, IH.
Qed.

Lemma deriveRoute_whiteSpaceOnly (name : jsstring) :
  whiteSpaceOnly name = true -> deriveRoute name = js "/api/-".
Proof.
  intros W. unfold deriveRoute.
  assert (name <> [] /\ forallb isWhiteSpace name = true) as [N A].
  { destruct name; [discriminate|]. split; [discriminate | exact W]. }
  rewrite toLowerCase_all_space by assumption.
  now rewrite replaceWhiteSpaceRuns_all_space.
Qed.

Lemma forallb_isNameUnit_space (s : jsstring) :
  forallb isWhiteSpace s = true -> forallb isNameUnit s = true.
Proof.
  rewrite !forallb_forall. intros H c I. unfold isNameUnit.
  rewrite (H c I). now rewrite !orb_true_r.
Qed.

(** The empty store, and what a registration leaves, keep routes distinct
    and derived from the names. *)
Lemma storeInv_empty (f : FileState) : blinks (readData f) = [] -> storeInv f.
Proof.
  intros E. unfold storeInv. rewrite E. split; constructor.
Qed.

Lemma existsb_route_false (r : jsstring) (l : list BlinkData.t) :
  existsb (fun b => eqs (BlinkData.route b) r) l = false ->
  ~ In r (map BlinkData.route l).
Proof.
  induction l as [|b l IH]; simpl; [tauto|].
  intros E. apply orb_false_iff in E. destruct E as [E1 E2].
  apply eqs_false_iff in E1. intros [H | H]; [contradiction | now apply IH].
Qed.

Lemma postBlinkCreate_storeInv (env : Env) (f : FileState) (req : BlinkRequest.t) :
  storeInv f -> storeInv (snd (postBlinkCreate env f req)).
Proof.
  intros I.
  destruct (postBlinkCreate_cases env f req)
    as [(msg & _ & E) | (_ & pubKey & _ & E)]; rewrite E; [exact I|].
  cbv zeta.
  destruct (existsb _ (blinks (readData f))) eqn:D; [exact I|].
  destruct (disk env); simpl.
  - destruct I as [U R]. unfold storeInv. rewrite readData_overwritten.
    destruct (canBeRead f); [|split; constructor]. simpl blinks.
    split.
    + rewrite map_app. simpl.
      apply NoDup_app; [exact U | repeat constructor; intros [] | ].
      intros r In1 [<- | []]. revert In1. now apply existsb_route_false.
    + apply Forall_app. split; [exact R|]. now repeat constructor.
  - exact I.
  - apply storeInv_empty. now rewrite readData_torn.
Qed.

Lemma registerAll_storeInv (reqs : list (Env * BlinkRequest.t)) (f : FileState) :
  storeInv f -> storeInv (registerAll f reqs).
Proof.
  revert f. induction reqs as [|[env req] reqs IH]; intros f I; [exact I|].
  simpl. apply IH. now apply postBlinkCreate_storeInv.
Qed.

Lemma filter_nil_when_none {A} (p : A -> bool) (l : list A) :
  (forall x, In x l -> p x = false) -> filter p l = [].
Proof.
  induction l as [|x l IH]; intros H; simpl; [reflexivity|].
  rewrite (H x) by now left.
  apply IH. intros y I. apply H. now right.
Qed.

Lemma storeInv_whiteSpaceOnly (f : FileState) :
  storeInv f -> List.length (whiteSpaceOnlyChannels f) <= 1.
Proof.
  unfold storeInv, whiteSpaceOnlyChannels.
  generalize (blinks (readData f)). intros l [U R].
  induction l as [|b l IH]; simpl; [lia|].
  inversion U as [|? ? Nin U']; subst.
  inversion R as [|? ? Rb R']; subst.
  destruct (whiteSpaceOnly (BlinkData.channelName b)) eqn:W.
  - rewrite filter_nil_when_none; [simpl; lia|].
    intros x I.
    destruct (whiteSpaceOnly (BlinkData.channelName x)) eqn:Wx; [|reflexivity].
    exfalso. apply Nin.
    rewrite Rb, (deriveRoute_whiteSpaceOnly _ W).
    rewrite <- (deriveRoute_whiteSpaceOnly _ Wx).
    rewrite Forall_forall in R'. rewrite <- (R' x I).
    now apply in_map.
  - now apply IH.
Qed.

(** C10. Every name of 3 to 50 white-space units passes the channel-name
    test and derives the route ['/api/-']; and whatever registrations are
    made on a store that starts empty, it never holds more than one channel
    whose name is white space only. *)
Theorem whitespace_only_names (name : jsstring) :
  3 <= List.length name <= 50 ->
  forallb isWhiteSpace name = true ->
  validateChannelName name = true
  /\ deriveRoute name = js "/api/-"
  /\ forall reqs : list (Env * BlinkRequest.t),
       List.length (whiteSpaceOnlyChannels (registerAll FileMissing reqs)) <= 1.
Proof.
  intros [L1 L2] A. split; [|split].
  - unfold validateChannelName.
    apply Nat.leb_le in L1. apply Nat.leb_le in L2.
    now rewrite L1, L2, forallb_isNameUnit_space.
  - apply deriveRoute_whiteSpaceOnly.
    destruct name; [simpl in L1; lia | exact A].
  - intros reqs. apply storeInv_whiteSpaceOnly, registerAll_storeInv.
    now apply storeInv_empty.
Qed.

End WhiteSpaceNames.

Lemma whitespace_only_names_witness :
  (validateChannelName (js "   ") = true
   /\ deriveRoute (js "   ") = js "/api/-"
   /\ forall reqs : list (Env * BlinkRequest.t),
        List.length (whiteSpaceOnlyChannels
                       (@registerAll Reference.platform FileMissing reqs)) <= 1)
  /\ @postBlinkCreate Reference.platform (Sample.env WriteCompletes)
       (Sample.storeWith "   " 0.5%float) (Sample.request "       " 1%float)
     = (JsonError 400 msgDuplicate, Sample.storeWith "   " 0.5%float).
Proof.
  split.
  - apply (@whitespace_only_names Reference.platform (js "   ")).
    + simpl. lia.
    + reflexivity.
  - vm_compute. reflexivity.
Defined.

(* ===================================================================== *)
(** ** The payment handler *)
(* ===================================================================== *)

Section Payment.

Context {P : Platform}.

(** Every step a payment request goes through before a transaction is
    returned. *)
Lemma postChannel_ActionPost (ledger : Ledger) (f : FileState)
    (channelName : jsstring) (account : option jsstring)
    (tx : Transaction) (msg : jsstring) :
  postChannel ledger f channelName account = ActionPost tx msg ->
  exists blink payer owner balance ins blockhash,
    truthy account = true
    /\ newPublicKey (orElse account []) = inr payer
    /\ resolve f channelName = Some blink
    /\ newPublicKey (BlinkData.publicKey blink) = inr owner
    /\ getBalance ledger payer = inr balance
    /\ (balance <? feeInLamports (BlinkData.fee blink))%float = false
    /\ SystemProgram_transfer payer owner (feeInLamports (BlinkData.fee blink)) = inr ins
    /\ getLatestBlockhash ledger = inr blockhash
    /\ tx = {| feePayer := payer; recentBlockhash := blockhash; instructions := [ins] |}
    /\ msg = thanks blink.
Proof.
  unfold postChannel, postChannelBody, bind, tryCatch, call, answerIf.
  destruct (truthy account) eqn:A; cbn [negb]; [|discriminate].
  destruct (newPublicKey (orElse account [])) as [t|payer] eqn:K1; [discriminate|].
  destruct (resolve f channelName) as [blink|] eqn:R; [|discriminate].
  destruct (newPublicKey (BlinkData.publicKey blink)) as [t|owner] eqn:K2;
    [destruct t; discriminate|].
  destruct (getBalance ledger payer) as [t|balance] eqn:B; [discriminate|].
  destruct (balance <? feeInLamports (BlinkData.fee blink))%float eqn:L; [discriminate|].
  destruct (SystemProgram_transfer payer owner _) as [t|ins] eqn:T;
    [destruct t; discriminate|].
  destruct (getLatestBlockhash ledger) as [t|blockhash] eqn:G;
    [destruct t; discriminate|].
  intros [= <- <-].
  exists blink, payer, owner, balance, ins, blockhash. repeat split; assumption.
Qed.

(** When the blockhash request is rejected, the payment handler answers
    without a transaction, whatever the store, the name and the account. *)
Theorem no_transaction_without_blockhash (ledger : Ledger) (f : FileState)
    (channelName : jsstring) (account : option jsstring) (t : Thrown) :
  getLatestBlockhash ledger = inl t ->
  forall tx msg, postChannel ledger f channelName account <> ActionPost tx msg.
Proof.
  intros G tx msg H. apply postChannel_ActionPost in H.
  destruct H as (? & ? & ? & ? & ? & blockhash & _ & _ & _ & _ & _ & _ & _ & G' & _).
  congruence.
Qed.

Lemma wholeFeeExact_all : forallb wholeFeeExact (map Z.of_nat (seq 1 1000)) = true.
Proof. vm_compute. reflexivity. Qed.

Lemma wholeNumber_fee_exact (n : Z) :
  (1 <= n <= 1000)%Z ->
  toInteger (feeInLamports (wholeNumber n)) = Some (n * 1000000000)%Z.
Proof.
  intros H.
  assert (I : In n (map Z.of_nat (seq 1 1000))).
  { apply in_map_iff. exists (Z.to_nat n). split; [lia|]. apply in_seq. lia. }
  pose proof (proj1 (forallb_forall _ _) wholeFeeExact_all n I) as E.
  unfold wholeFeeExact in E.
  destruct (toInteger (feeInLamports (wholeNumber n))) as [z|]; [|discriminate].
  apply Z.eqb_eq in E. now subst z.
Qed.

(** Whenever the handler returns a transaction for a stored record and a
    payer, its one instruction is what [SystemProgram.transfer] made of
    payer, owner and the amount [blink.fee * LAMPORTS_PER_SOL], a single
    binary64 multiplication; when the fee is a whole number from 1 to 1000
    that amount is the integer fee x 10^9. *)
Theorem payment_amount (ledger : Ledger) (f : FileState)
    (channelName : jsstring) (account : option jsstring)
    (tx : Transaction) (msg : jsstring) :
  postChannel ledger f channelName account = ActionPost tx msg ->
  exists blink payer owner ins,
    resolve f channelName = Some blink
    /\ newPublicKey (orElse account []) = inr payer
    /\ newPublicKey (BlinkData.publicKey blink) = inr owner
    /\ SystemProgram_transfer payer owner
         (BlinkData.fee blink * LAMPORTS_PER_SOL)%float = inr ins
    /\ instructions tx = [ins]
    /\ feePayer tx = payer
    /\ forall n : Z, (1 <= n <= 1000)%Z -> BlinkData.fee blink = wholeNumber n ->
         toInteger (feeInLamports (BlinkData.fee blink)) = Some (n * 1000000000)%Z.
Proof.
  intros H. apply postChannel_ActionPost in H.
  destruct H as (blink & payer & owner & balance & ins & blockhash
                 & _ & K1 & R & K2 & _ & _ & T & _ & -> & _).
  exists blink, payer, owner, ins. repeat split; try assumption.
  intros n Hn ->. now apply wholeNumber_fee_exact.
Qed.

(** What a payer whose balance covers the fee is answered, once account,
    channel and owner address are found: the transaction, when the SDK makes
    the transfer and the ledger gives a blockhash; otherwise whatever was
    thrown goes to the [catch] of lines 266-271. *)
Lemma postChannel_funded (ledger : Ledger) (f : FileState)
    (channelName : jsstring) (account : option jsstring)
    (blink : BlinkData.t) (payer owner : PublicKey) (balance : float) :
  truthy account = true ->
  newPublicKey (orElse account []) = inr payer ->
  resolve f channelName = Some blink ->
  newPublicKey (BlinkData.publicKey blink) = inr owner ->
  getBalance ledger payer = inr balance ->
  (balance <? feeInLamports (BlinkData.fee blink))%float = false ->
  postChannel ledger f channelName account
  = match SystemProgram_transfer payer owner (feeInLamports (BlinkData.fee blink)),
          getLatestBlockhash ledger with
    | inr ins, inr blockhash =>
        ActionPost {| feePayer := payer; recentBlockhash := blockhash;
                      instructions := [ins] |}
                   (thanks blink)
    | inl thrown, _ => postChannelCatch thrown
    | inr _, inl thrown => postChannelCatch thrown
    end.
Proof.
  intros A K1 R K2 B L.
  unfold postChannel, postChannelBody, bind, tryCatch, call, answerIf.
  rewrite A, K1, R, K2, B, L. cbn [negb].
  destruct (SystemProgram_transfer payer owner _) as [t|ins]; [reflexivity|].
  destruct (getLatestBlockhash ledger) as [t|blockhash]; reflexivity.
Qed.

(** C5, on the code.  The handler hands [blink.fee * LAMPORTS_PER_SOL], a
    binary64 number, to [SystemProgram.transfer] as it is (lines 244-248):
    nothing rounds it or tests that it is an integer.  The fee 4.1 passes
    the fee test of registration, and its product is the number
    4099999999.9999995 (exact arithmetic gives 4100000000).  For a channel
    whose fee has a product that is not an integer, and an SDK that throws
    an [Error] on such an amount (as the conversion to [BigInt] does), no
    payment request is ever answered with a transaction, and a payer whose
    balance covers the fee is answered 400 with the SDK's message. *)
Theorem fractional_fee_cannot_be_paid
    (ledger : Ledger) (f : FileState) (channelName : jsstring)
    (account : option jsstring) (blink : BlinkData.t) :
  (forall from to amount, toInteger amount = None ->
     exists message,
       SystemProgram_transfer from to amount = inl (ErrorObject message)) ->
  resolve f channelName = Some blink ->
  toInteger (feeInLamports (BlinkData.fee blink)) = None ->
  (feeOk 4.1%float = true
   /\ feeInLamports 4.1%float = 4099999999.9999995%float
   /\ toInteger (feeInLamports 4.1%float) = None)
  /\ (forall tx msg, postChannel ledger f channelName account <> ActionPost tx msg)
  /\ (forall payer owner balance,
        truthy account = true ->
        newPublicKey (orElse account []) = inr payer ->
        newPublicKey (BlinkData.publicKey blink) = inr owner ->
        getBalance ledger payer = inr balance ->
        (balance <? feeInLamports (BlinkData.fee blink))%float = false ->
        exists message,
          SystemProgram_transfer payer owner (feeInLamports (BlinkData.fee blink))
          = inl (ErrorObject message)
          /\ postChannel ledger f channelName account = JsonError 400 message).
Proof.
  intros Sdk R NotInt. split; [|split].
  - repeat split; vm_compute; reflexivity.
  - intros tx msg H. apply postChannel_ActionPost in H.
    destruct H as (blink' & payer & owner & balance & ins & blockhash
                   & _ & _ & R' & _ & _ & _ & T & _).
    rewrite R in R'. injection R' as <-.
    destruct (Sdk payer owner _ NotInt) as (message & T').
    congruence.
  - intros payer owner balance A K1 K2 B L.
    destruct (Sdk payer owner _ NotInt) as (message & T).
    exists message. split; [exact T|].
    rewrite (postChannel_funded ledger f channelName account blink payer owner balance)
      by assumption.
    now rewrite T.
Qed.

End Payment.

Lemma payment_amount_witness :
  @postChannel Reference.platform Sample.ledgerUp
    (Sample.storeWith "Test Show" 2%float) (js "test show") (Some Sample.payer)
  = ActionPost Sample.paidTransaction Sample.paidMessage
  /\ exists blink payer owner ins,
       resolve (Sample.storeWith "Test Show" 2%float) (js "test show") = Some blink
       /\ @newPublicKey Reference.platform (orElse (Some Sample.payer) []) = inr payer
       /\ @newPublicKey Reference.platform (BlinkData.publicKey blink) = inr owner
       /\ @SystemProgram_transfer Reference.platform payer owner
            (BlinkData.fee blink * LAMPORTS_PER_SOL)%float = inr ins
       /\ instructions Sample.paidTransaction = [ins]
       /\ feePayer Sample.paidTransaction = payer
       /\ forall n : Z, (1 <= n <= 1000)%Z -> BlinkData.fee blink = wholeNumber n ->
            toInteger (feeInLamports (BlinkData.fee blink)) = Some (n * 1000000000)%Z.
Proof.
  split.
  - vm_compute. reflexivity.
  - apply (@payment_amount Reference.platform Sample.ledgerUp
             (Sample.storeWith "Test Show" 2%float) (js "test show")
             (Some Sample.payer) Sample.paidTransaction Sample.paidMessage).
    vm_compute. reflexivity.
Defined.

(** A channel with the fee 4.1 is registered, and the payer who holds
    5 SOL is answered 400. *)
Lemma fractional_fee_cannot_be_paid_witness :
  @postBlinkCreate Reference.platform (Sample.env WriteCompletes) FileMissing
    (Sample.request "Test Show" 4.1%float)
  = (Created (js "/api/test-show") (js "Test Show"),
     Sample.storeWith "Test Show" 4.1%float)
  /\ (forall tx msg,
        @postChannel Reference.platform Sample.ledgerUp
          (Sample.storeWith "Test Show" 4.1%float) (js "Test Show") (Some Sample.payer)
        <> ActionPost tx msg)
  /\ @postChannel Reference.platform Sample.ledgerUp
       (Sample.storeWith "Test Show" 4.1%float) (js "Test Show") (Some Sample.payer)
     = JsonError 400
         (js "The number cannot be converted to a BigInt because it is not an integer").
Proof.
  assert (Sdk : forall from to amount, toInteger amount = None ->
            exists message,
              @SystemProgram_transfer Reference.platform from to amount
              = inl (ErrorObject message)).
  { intros from to amount N. eexists. simpl. unfold Reference.transfer.
    rewrite N. reflexivity. }
  destruct (@fractional_fee_cannot_be_paid Reference.platform Sample.ledgerUp
              (Sample.storeWith "Test Show" 4.1%float) (js "Test Show")
              (Some Sample.payer)
              (@newBlink Reference.platform (Sample.env WriteCompletes)
                 (Sample.request "Test Show" 4.1%float) (Sample.keyOf Sample.owner))
              Sdk)
    as (_ & Never & Funded).
  - vm_compute. reflexivity.
  - vm_compute. reflexivity.
  - split; [vm_compute; reflexivity|]. split; [exact Never|].
    destruct (Funded (Sample.keyOf Sample.payer) (Sample.keyOf Sample.owner)
                     5000000000%float)
      as (message & T & E).
    + reflexivity.
    + vm_compute. reflexivity.
    + vm_compute. reflexivity.
    + reflexivity.
    + vm_compute. reflexivity.
    + vm_compute in T. injection T as <-. exact E.
Defined.

(** C9, on the code.  The ledger answers the balance request and then
    fails the blockhash request with an [Error]: the handler answers 400
    with the error's own message.  When it is the balance request that
    fails, the same handler answers 500. *)
Theorem blockhash_failure_answered_400 :
  @postChannel Reference.platform Sample.ledgerTimesOut
    (Sample.storeWith "Test Show" 0.5%float) (js "Test Show") (Some Sample.payer)
  = JsonError 400 (js "fetch failed")
  /\ @postChannel Reference.platform Sample.ledgerDown
       (Sample.storeWith "Test Show" 0.5%float) (js "Test Show") (Some Sample.payer)
     = JsonError 500 (js "Error checking balance").
Proof. split; vm_compute; reflexivity. Qed.

(* ===================================================================== *)
(** ** Further properties of the handlers *)
(* ===================================================================== *)

Lemma no_transaction_without_blockhash_witness :
  getLatestBlockhash Sample.ledgerTimesOut = inl (ErrorObject (js "fetch failed"))
  /\ forall tx msg,
       @postChannel Reference.platform Sample.ledgerTimesOut
         (Sample.storeWith "Test Show" 0.5%float) (js "Test Show") (Some Sample.payer)
       <> ActionPost tx msg.
Proof.
  split; [reflexivity|].
  apply (@no_transaction_without_blockhash Reference.platform Sample.ledgerTimesOut
           (Sample.storeWith "Test Show" 0.5%float) (js "Test Show")
           (Some Sample.payer) (ErrorObject (js "fetch failed"))).
  reflexivity.
Defined.

(** Whatever registrations are made on a store that starts empty, and
    whatever the disk does to each save, the routes of the stored records
    stay pairwise distinct and each is the route derived from its record's
    name. *)
Theorem registry_routes_unique {P : Platform} (reqs : list (Env * BlinkRequest.t)) :
  storeInv (registerAll FileMissing reqs).
Proof.
  apply registerAll_storeInv. now apply storeInv_empty.
Qed.

(* ===================================================================== *)
(** ** More on the registry: what a registration changes and what it keeps *)
(* ===================================================================== *)

Section RegistryFrame.

Context {P : Platform}.

(** No registration request is answered otherwise than with 400, 500 or
    201; a request answered with 400 never touches the backing file, a 500
    only comes from a save that failed, a 201 only from a save that
    completed. *)
Theorem registration_answers (env : Env) (f : FileState) (req : BlinkRequest.t) :
  (exists msg, postBlinkCreate env f req = (JsonError 400 msg, f))
  \/ (exists f', postBlinkCreate env f req = (JsonError 500 msgSaving, f')
                 /\ disk env <> WriteCompletes
                 /\ validRequest req = true)
  \/ (exists f', postBlinkCreate env f req
                 = (Created (deriveRoute (BlinkRequest.channelName req))
                            (BlinkRequest.channelName req), f')
                 /\ disk env = WriteCompletes
                 /\ validRequest req = true).
Proof.
  destruct (postBlinkCreate_cases env f req)
    as [(msg & _ & E) | (V & pubKey & _ & E)]; [left; eauto|].
  rewrite E. cbv zeta.
  destruct (existsb _ (blinks (readData f))); [left; eauto|].
  right. destruct (disk env) eqn:W; simpl.
  - right. eauto.
  - left. eexists. repeat split; [discriminate | assumption].
  - left. eexists. repeat split; [discriminate | assumption].
Qed.

Lemma find_app_some {A} (p : A -> bool) (l l' : list A) (x : A) :
  find p l = Some x -> find p (l ++ l') = Some x.
Proof.
  induction l as [|y l IH]; simpl; [discriminate|].
  destruct (p y); [trivial | exact IH].
Qed.

(** On a backing file that is missing or can be read, a registration
    answered with 201 appends one record, whose route is the one answered,
    and changes nothing else: every name that resolved before resolves to
    the same record after, and the listing is the old listing followed by
    the summary of the new record. *)
Theorem registration_keeps_existing_channels
    (env : Env) (f f' : FileState) (req : BlinkRequest.t) (r n : jsstring) :
  canBeRead f = true ->
  postBlinkCreate env f req = (Created r n, f') ->
  exists blink,
    BlinkData.route blink = r
    /\ blinks (readData f') = blinks (readData f) ++ [blink]
    /\ (forall m b, resolve f m = Some b -> resolve f' m = Some b)
    /\ getChannelsList f'
       = ChannelList (map summarize (blinks (readData f)) ++ [summarize blink]).
Proof.
  intros Readable H. apply postBlinkCreate_Created in H.
  destruct H as (_ & -> & _ & _ & _ & pubKey & _ & ->).
  rewrite overwritten_canBeRead by assumption.
  exists (newBlink env req pubKey).
  split; [reflexivity|]. split; [reflexivity|]. split.
  - intros m b R. unfold resolve in *. rewrite readData_Document. simpl blinks.
    now apply find_app_some.
  - unfold getChannelsList. rewrite readData_Document. simpl blinks.
    now rewrite map_app.
Qed.

(** On a [data.json] that is there and cannot be read, a valid registration
    whose write completes is answered with 201 and is lost: the file cannot
    be read any more than before, so that the channel is not found under
    any name, the listing is empty, and the same request, where the
    duplicate test should stop it, is answered with 201 once more. *)
Theorem registration_lost_on_unreadable_file
    (env env' : Env) (req : BlinkRequest.t) :
  validRequest req = true ->
  disk env = WriteCompletes ->
  disk env' = WriteCompletes ->
  let created := Created (deriveRoute (BlinkRequest.channelName req))
                         (BlinkRequest.channelName req) in
  let f' := snd (postBlinkCreate env FileUnreadable req) in
  fst (postBlinkCreate env FileUnreadable req) = created
  /\ canBeRead f' = false
  /\ (forall m, getChannel f' m = JsonError 404 msgNotFound)
  /\ getChannelsList f' = ChannelList []
  /\ fst (postBlinkCreate env' f' req) = created.
Proof.
  intros V W W'. cbv zeta.
  destruct (postBlinkCreate_valid env FileUnreadable req V) as (pubKey & _ & E).
  destruct (postBlinkCreate_valid env' FileUnreadable req V) as (pubKey' & _ & E').
  cbv zeta in E, E'. simpl in E, E'. rewrite W in E. rewrite W' in E'. simpl in E, E'.
  rewrite E. simpl. rewrite E'. repeat split.
Qed.

End RegistryFrame.

Lemma registration_keeps_existing_channels_witness :
  exists blink,
    BlinkData.route blink = js "/api/other-show"
    /\ blinks (readData (snd (@postBlinkCreate Reference.platform
                                (Sample.env WriteCompletes)
                                (Sample.storeWith "Test Show" 0.5%float)
                                (Sample.request "Other Show" 1%float))))
       = blinks (readData (Sample.storeWith "Test Show" 0.5%float)) ++ [blink]
    /\ (forall m b,
          resolve (Sample.storeWith "Test Show" 0.5%float) m = Some b ->
          resolve (snd (@postBlinkCreate Reference.platform
                          (Sample.env WriteCompletes)
                          (Sample.storeWith "Test Show" 0.5%float)
                          (Sample.request "Other Show" 1%float))) m = Some b)
    /\ getChannelsList (snd (@postBlinkCreate Reference.platform
                               (Sample.env WriteCompletes)
                               (Sample.storeWith "Test Show" 0.5%float)
                               (Sample.request "Other Show" 1%float)))
       = ChannelList
           (map summarize (blinks (readData (Sample.storeWith "Test Show" 0.5%float)))
            ++ [summarize blink]).
Proof.
  apply (@registration_keeps_existing_channels Reference.platform
           (Sample.env WriteCompletes) (Sample.storeWith "Test Show" 0.5%float)
           _ (Sample.request "Other Show" 1%float)
           (js "/api/other-show") (js "Other Show")).
  - reflexivity.
  - vm_compute. reflexivity.
Defined.

Lemma registration_lost_on_unreadable_file_witness :
  let created := Created (js "/api/test-show") (js "Test Show") in
  let f' := snd (@postBlinkCreate Reference.platform (Sample.env WriteCompletes)
                   FileUnreadable (Sample.request "Test Show" 0.5%float)) in
  fst (@postBlinkCreate Reference.platform (Sample.env WriteCompletes)
         FileUnreadable (Sample.request "Test Show" 0.5%float)) = created
  /\ canBeRead f' = false
  /\ (forall m, getChannel f' m = JsonError 404 msgNotFound)
  /\ getChannelsList f' = ChannelList []
  /\ fst (@postBlinkCreate Reference.platform (Sample.env WriteCompletes)
            f' (Sample.request "Test Show" 0.5%float)) = created.
Proof.
  apply (@registration_lost_on_unreadable_file Reference.platform
           (Sample.env WriteCompletes) (Sample.env WriteCompletes)
           (Sample.request "Test Show" 0.5%float)).
  - vm_compute. reflexivity.
  - reflexivity.
  - reflexivity.
Defined.

(* ===================================================================== *)
(** ** Routes of valid names *)
(* ===================================================================== *)

Section Slugs.

Context {P : Platform}.

Lemma deriveRoute_slug (name : jsstring) : deriveRoute name = js "/api/" ++ slug name.
Proof. reflexivity. Qed.

Lemma isSlugUnit_plain (c : codeunit) :
  isSlugUnit c = true -> isWhiteSpace c = false /\ isUpper c = false.
Proof.
  unfold isSlugUnit, isLower, isDigit, isUpper, hyphen, underscore.
  rewrite !orb_true_iff, !andb_true_iff, !N.eqb_eq, !N.leb_le. intros H.
  split.
  - apply not_isWhiteSpace. lia.
  - apply andb_false_iff. rewrite !N.leb_gt. lia.
Qed.

(** Lower-casing a unit of a valid name gives a slug unit, unless the unit
    is white space. *)
Lemma isSlugUnit_toLowerUnit (c : codeunit) :
  isNameUnit c = true -> isWhiteSpace c = false -> isSlugUnit (toLowerUnit c) = true.
Proof.
  unfold isNameUnit. intros H W. rewrite W, orb_false_r in H.
  unfold toLowerUnit. destruct (isUpper c) eqn:U.
  - apply isUpper_range in U. unfold isSlugUnit, isLower.
    replace ((97 <=? c + 32)%N && (c + 32 <=? 122)%N) with true; [reflexivity|].
    symmetry. apply andb_true_iff. rewrite !N.leb_le. lia.
  - unfold isSlugUnit. rewrite !orb_true_iff in *. intuition discriminate.
Qed.

Lemma slug_units (name : jsstring) :
  forallb isNameUnit name = true -> forallb isSlugUnit (slug name) = true.
Proof.
  unfold slug. induction name as [|c s IH]; [reflexivity|].
  intros H. simpl in H. apply andb_true_iff in H. destruct H as [Hc Hs].
  specialize (IH Hs).
  change (toLowerCase (c :: s)) with (toLowerUnit c :: toLowerCase s).
  destruct (isWhiteSpace c) eqn:W.
  - rewrite replaceWhiteSpaceRuns_space
      by (now rewrite isWhiteSpace_toLowerUnit).
    destruct (startsWithSpace (toLowerCase s)); [exact IH|].
    cbn [forallb]. now rewrite IH.
  - rewrite replaceWhiteSpaceRuns_unit
      by (now rewrite isWhiteSpace_toLowerUnit).
    cbn [forallb]. now rewrite isSlugUnit_toLowerUnit, IH.
Qed.

Lemma replaceWhiteSpaceRuns_length (s : jsstring) :
  List.length (replaceWhiteSpaceRuns s) <= List.length s
  /\ (s <> [] -> replaceWhiteSpaceRuns s <> []).
Proof.
  induction s as [|c s [IH1 IH2]]; [split; [simpl; lia | intros H; now elim H]|].
  destruct (isWhiteSpace c) eqn:W.
  - rewrite replaceWhiteSpaceRuns_space by assumption.
    destruct s as [|d s]; [split; [simpl; lia | discriminate]|].
    simpl startsWithSpace. destruct (isWhiteSpace d).
    + split; [simpl in *; lia | intros _; apply IH2; discriminate].
    + split; [simpl in *; lia | discriminate].
  - rewrite replaceWhiteSpaceRuns_unit by assumption.
    split; [simpl in *; lia | discriminate].
Qed.

(** A string without white space and upper case is its own slug. *)
Lemma slug_fixed (s : jsstring) : forallb isPlainUnit s = true -> slug s = s.
Proof.
  unfold slug. induction s as [|c s IH]; [reflexivity|].
  intros H. simpl in H. apply andb_true_iff in H. destruct H as [Hc Hs].
  unfold isPlainUnit in Hc. apply andb_true_iff in Hc.
  rewrite !negb_true_iff in Hc. destruct Hc as [W U].
  change (toLowerCase (c :: s)) with (toLowerUnit c :: toLowerCase s).
  unfold toLowerUnit at 1. rewrite U.
  rewrite replaceWhiteSpaceRuns_unit by assumption.
  now rewrite IH.
Qed.

Lemma toLowerUnit_not_upper (c : codeunit) : isUpper (toLowerUnit c) = false.
Proof.
  unfold toLowerUnit. destruct (isUpper c) eqn:U; [|exact U].
  apply isUpper_range in U. apply andb_false_iff. rewrite !N.leb_gt. lia.
Qed.

Lemma slug_plain (s : jsstring) : forallb isPlainUnit (slug s) = true.
Proof.
  unfold slug. induction s as [|c s IH]; [reflexivity|].
  change (toLowerCase (c :: s)) with (toLowerUnit c :: toLowerCase s).
  destruct (isWhiteSpace c) eqn:W.
  - rewrite replaceWhiteSpaceRuns_space
      by (now rewrite isWhiteSpace_toLowerUnit).
    destruct (startsWithSpace (toLowerCase s)); [exact IH|].
    cbn [forallb]. now rewrite IH.
  - rewrite replaceWhiteSpaceRuns_unit
      by (now rewrite isWhiteSpace_toLowerUnit).
    cbn [forallb]. unfold isPlainUnit at 1.
    now rewrite isWhiteSpace_toLowerUnit, W, toLowerUnit_not_upper, IH.
Qed.

(** The slug of a name derives the route of the name. *)
Lemma deriveRoute_of_slug (name : jsstring) : deriveRoute (slug name) = deriveRoute name.
Proof.
  rewrite !deriveRoute_slug. f_equal. apply slug_fixed, slug_plain.
Qed.

(** The route of a name that passes the channel-name test is [/api/]
    followed by 1 to 50 units, each a lower-case letter, a digit, a hyphen
    or an underscore: no white space, no upper case, no further [/]; and
    the name written as that slug derives the same route. *)
Theorem route_of_valid_name (name : jsstring) :
  validateChannelName name = true ->
  deriveRoute name = js "/api/" ++ slug name
  /\ 1 <= List.length (slug name) <= 50
  /\ forallb isSlugUnit (slug name) = true
  /\ deriveRoute (slug name) = deriveRoute name.
Proof.
  unfold validateChannelName. rewrite !andb_true_iff, !Nat.leb_le.
  intros [[L1 L2] U].
  pose proof (slug_units name U) as SU.
  split; [reflexivity|]. split; [|split; [exact SU|]].
  - unfold slug.
    destruct (replaceWhiteSpaceRuns_length (toLowerCase name)) as [Le Ne].
    unfold toLowerCase in *. rewrite length_map in Le.
    split; [|lia].
    destruct (replaceWhiteSpaceRuns (map toLowerUnit name)) eqn:E; [|simpl; lia].
    exfalso. apply Ne; [|reflexivity].
    destruct name; [simpl in L1; lia | discriminate].
  - apply deriveRoute_of_slug.
Qed.

(** On a backing file that is missing or can be read, the lookup of a
    channel that has just been registered succeeds under every spelling of
    its name that differs in letter case or white-space runs, and under the
    slug that stands in its route; the GET handler then shows the
    registered name and description, and the cover image of the request or
    the default one when the request has none. *)
Theorem channel_reachable_under_any_spelling
    (env : Env) (f f' : FileState) (req : BlinkRequest.t) (r n m : jsstring) :
  canBeRead f = true ->
  postBlinkCreate env f req = (Created r n, f') ->
  sameUpToCaseAndSpacing (BlinkRequest.channelName req) m
  \/ m = slug (BlinkRequest.channelName req) ->
  r = js "/api/" ++ slug (BlinkRequest.channelName req)
  /\ getChannel f' m
     = ActionGet (orElse (BlinkRequest.coverImage req) defaultCover)
                 (js "Join our Telegram channel")
                 (BlinkRequest.channelName req)
                 (BlinkRequest.description req).
Proof.
  intros Readable H S.
  pose proof (postBlinkCreate_Created _ _ _ _ _ _ H)
    as (V & -> & -> & D & _ & pubKey & _ & ->).
  rewrite overwritten_canBeRead by assumption.
  split; [reflexivity|].
  assert (R : deriveRoute m = deriveRoute (BlinkRequest.channelName req)).
  { destruct S as [S | ->].
    - symmetry. now apply deriveRoute_insensitive.
    - apply deriveRoute_of_slug. }
  unfold getChannel, resolve. rewrite R.
  fold (resolve (FilePresent
                   (Document {| blinks := blinks (readData f) ++ [newBlink env req pubKey] |}))
                (BlinkRequest.channelName req)).
  rewrite resolve_after_append; [reflexivity | reflexivity | assumption].
Qed.

End Slugs.

Lemma route_of_valid_name_witness :
  deriveRoute (js "My  Channel_1") = js "/api/" ++ slug (js "My  Channel_1")
  /\ 1 <= List.length (slug (js "My  Channel_1")) <= 50
  /\ forallb isSlugUnit (slug (js "My  Channel_1")) = true
  /\ deriveRoute (slug (js "My  Channel_1")) = deriveRoute (js "My  Channel_1").
Proof.
  apply (route_of_valid_name (js "My  Channel_1")). reflexivity.
Defined.

Lemma channel_reachable_under_any_spelling_witness :
  js "/api/test-show" = js "/api/" ++ slug (js "Test Show")
  /\ getChannel (Sample.storeWith "Test Show" 0.5%float) (js "test-show")
     = ActionGet defaultCover (js "Join our Telegram channel") (js "Test Show")
                 (js "Support my show please").
Proof.
  apply (@channel_reachable_under_any_spelling Reference.platform
           (Sample.env WriteCompletes) FileMissing
           (Sample.storeWith "Test Show" 0.5%float)
           (Sample.request "Test Show" 0.5%float)
           (js "/api/test-show") (js "Test Show") (js "test-show")).
  - reflexivity.
  - vm_compute. reflexivity.
  - right. vm_compute. reflexivity.
Defined.

(* ===================================================================== *)
(** ** More on the payment handler *)
(* ===================================================================== *)

Section PaymentSteps.

Context {P : Platform}.

Lemma postChannel_builds (ledger : Ledger) (f : FileState)
    (channelName : jsstring) (account : option jsstring)
    (blink : BlinkData.t) (payer owner : PublicKey) (balance : float)
    (ins : Instruction) (blockhash : jsstring) :
  truthy account = true ->
  newPublicKey (orElse account []) = inr payer ->
  resolve f channelName = Some blink ->
  newPublicKey (BlinkData.publicKey blink) = inr owner ->
  getBalance ledger payer = inr balance ->
  (balance <? BlinkData.fee blink * LAMPORTS_PER_SOL)%float = false ->
  SystemProgram_transfer payer owner
    (BlinkData.fee blink * LAMPORTS_PER_SOL)%float = inr ins ->
  getLatestBlockhash ledger = inr blockhash ->
  postChannel ledger f channelName account
  = ActionPost {| feePayer := payer; recentBlockhash := blockhash; instructions := [ins] |}
               (thanks blink).
Proof.
  intros A K1 R K2 B L T G.
  unfold postChannel, postChannelBody, bind, tryCatch, call, answerIf, feeInLamports.
  now rewrite A, K1, R, K2, B, L, T, G.
Qed.

(** The payment handler answers with a transaction exactly when the
    account is present and well formed, the channel is known, the stored
    owner address is well formed, the balance could be read and is not
    below the fee in lamports, the SDK made the transfer, and the blockhash
    could be fetched; the transaction then has the payer as fee payer, that
    blockhash, and the transfer as its only instruction. *)
Theorem payment_built_exactly_when (ledger : Ledger) (f : FileState)
    (channelName : jsstring) (account : option jsstring)
    (tx : Transaction) (msg : jsstring) :
  postChannel ledger f channelName account = ActionPost tx msg
  <->
  exists blink payer owner balance ins blockhash,
    truthy account = true
    /\ newPublicKey (orElse account []) = inr payer
    /\ resolve f channelName = Some blink
    /\ newPublicKey (BlinkData.publicKey blink) = inr owner
    /\ getBalance ledger payer = inr balance
    /\ (balance <? BlinkData.fee blink * LAMPORTS_PER_SOL)%float = false
    /\ SystemProgram_transfer payer owner
         (BlinkData.fee blink * LAMPORTS_PER_SOL)%float = inr ins
    /\ getLatestBlockhash ledger = inr blockhash
    /\ tx = {| feePayer := payer; recentBlockhash := blockhash; instructions := [ins] |}
    /\ msg = thanks blink.
Proof.
  split; [apply postChannel_ActionPost|].
  intros (blink & payer & owner & balance & ins & blockhash
          & A & K1 & R & K2 & B & L & T & G & -> & ->).
  now apply (postChannel_builds ledger f channelName account
               blink payer owner balance ins blockhash).
Qed.

(** The tests that come before any request to the ledger, in their order:
    a missing or empty account is answered 400 ['Account is required']; a
    malformed account 400 ['Invalid account public key'], also when the
    channel is unknown; an unknown channel 404.  None of these answers
    depends on the ledger. *)
Theorem payment_refused_before_ledger (ledger : Ledger) (f : FileState)
    (channelName : jsstring) (account : option jsstring) :
  (truthy account = false ->
   postChannel ledger f channelName account
   = JsonError 400 (js "Account is required"))
  /\ (truthy account = true ->
      forall t, newPublicKey (orElse account []) = inl t ->
      postChannel ledger f channelName account
      = JsonError 400 (js "Invalid account public key"))
  /\ (truthy account = true ->
      forall payer, newPublicKey (orElse account []) = inr payer ->
      resolve f channelName = None ->
      postChannel ledger f channelName account = JsonError 404 msgNotFound).
Proof.
  unfold postChannel, postChannelBody, bind, tryCatch, call, answerIf.
  repeat split.
  - intros A. now rewrite A.
  - intros A t K. now rewrite A, K.
  - intros A payer K R. now rewrite A, K, R.
Qed.

(** Once account and channel are found: a stored owner address that the SDK
    refuses is answered 400 with the SDK's message; a balance request that
    fails is answered 500 ['Error checking balance'] whatever was thrown;
    a balance below the fee in lamports is answered 400
    ['Insufficient balance']; and in none of these cases is the blockhash
    request or the transfer looked at. *)
Theorem payment_refused_at_balance (ledger : Ledger) (f : FileState)
    (channelName : jsstring) (account : option jsstring)
    (payer : PublicKey) (blink : BlinkData.t) :
  truthy account = true ->
  newPublicKey (orElse account []) = inr payer ->
  resolve f channelName = Some blink ->
  (forall message, newPublicKey (BlinkData.publicKey blink) = inl (ErrorObject message) ->
     postChannel ledger f channelName account = JsonError 400 message)
  /\ (forall owner t,
        newPublicKey (BlinkData.publicKey blink) = inr owner ->
        getBalance ledger payer = inl t ->
        postChannel ledger f channelName account
        = JsonError 500 (js "Error checking balance"))
  /\ (forall owner balance,
        newPublicKey (BlinkData.publicKey blink) = inr owner ->
        getBalance ledger payer = inr balance ->
        (balance <? BlinkData.fee blink * LAMPORTS_PER_SOL)%float = true ->
        postChannel ledger f channelName account
        = JsonError 400 (js "Insufficient balance")).
Proof.
  intros A K R.
  unfold postChannel, postChannelBody, bind, tryCatch, call, answerIf, feeInLamports.
  rewrite A, K, R. repeat split.
  - intros message K2. now rewrite K2.
  - intros owner t K2 B. now rewrite K2, B.
  - intros owner balance K2 B L. now rewrite K2, B, L.
Qed.

(** From registration to payment.  After a registration answered with 201
    on a backing file that is missing or can be read, take a payment
    request under any name that derives the registered route, by a
    well-formed account whose balance is not below the fee.  It is answered
    with a transaction when the SDK makes the transfer and the ledger gives
    a blockhash: the fee payer is the account, the recipient handed to the
    SDK is the key of the registered publicKey, the amount handed to it is
    the registered fee times LAMPORTS_PER_SOL, and the message shows the
    registered link.  When the SDK refuses the amount, or the blockhash
    request fails, the answer is that of the [catch] of lines 266-271.  The
    SDK is asked to read back the address it printed at registration; the
    hypothesis says it reads it as the same key. *)
Theorem registered_channel_payment
    (env : Env) (f f' : FileState) (req : BlinkRequest.t) (r n m : jsstring)
    (ledger : Ledger) (acct : jsstring)
    (owner payer : PublicKey) (balance : float) :
  canBeRead f = true ->
  postBlinkCreate env f req = (Created r n, f') ->
  newPublicKey (BlinkRequest.publicKey req) = inr owner ->
  newPublicKey (publicKeyToString owner) = inr owner ->
  deriveRoute m = r ->
  acct <> [] ->
  newPublicKey acct = inr payer ->
  getBalance ledger payer = inr balance ->
  (balance <? BlinkRequest.fee req * LAMPORTS_PER_SOL)%float = false ->
  postChannel ledger f' m (Some acct)
  = match SystemProgram_transfer payer owner
            (BlinkRequest.fee req * LAMPORTS_PER_SOL)%float,
          getLatestBlockhash ledger with
    | inr ins, inr blockhash =>
        ActionPost
          {| feePayer := payer; recentBlockhash := blockhash; instructions := [ins] |}
          (js "Thanks for joining! After payment, you can access the channel at: "
           ++ (orElse (BASE_URL env) defaultBase ++ r)
           ++ js " (Telegram: " ++ BlinkRequest.telegramLink req ++ js ")")
    | inl thrown, _ => postChannelCatch thrown
    | inr _, inl thrown => postChannelCatch thrown
    end.
Proof.
  intros Readable H K Back R A Kp B L.
  pose proof (postBlinkCreate_Created _ _ _ _ _ _ H)
    as (_ & -> & -> & D & _ & pubKey & K' & ->).
  rewrite K in K'. injection K' as <-.
  rewrite overwritten_canBeRead by assumption.
  assert (acct = orElse (Some acct) []) as E by (destruct acct; [now elim A | reflexivity]).
  apply (postChannel_funded ledger _ m (Some acct) (newBlink env req owner)
           payer owner balance); try assumption.
  - destruct acct; [now elim A | reflexivity].
  - now rewrite <- E.
  - unfold resolve. rewrite R.
    fold (resolve (FilePresent
                     (Document {| blinks := blinks (readData f) ++ [newBlink env req owner] |}))
                  (BlinkRequest.channelName req)).
    now apply resolve_after_append.
Qed.

End PaymentSteps.

Lemma payment_refused_at_balance_witness :
  (forall message,
     @newPublicKey Reference.platform Sample.owner = inl (ErrorObject message) ->
     @postChannel Reference.platform Sample.ledgerDown
       (Sample.storeWith "Test Show" 0.5%float) (js "Test Show") (Some Sample.payer)
     = JsonError 400 message)
  /\ (forall owner t,
        @newPublicKey Reference.platform Sample.owner = inr owner ->
        getBalance Sample.ledgerDown (Sample.keyOf Sample.payer) = inl t ->
        @postChannel Reference.platform Sample.ledgerDown
          (Sample.storeWith "Test Show" 0.5%float) (js "Test Show") (Some Sample.payer)
        = JsonError 500 (js "Error checking balance"))
  /\ (forall owner balance,
        @newPublicKey Reference.platform Sample.owner = inr owner ->
        getBalance Sample.ledgerDown (Sample.keyOf Sample.payer) = inr balance ->
        (balance <? 0.5 * LAMPORTS_PER_SOL)%float = true ->
        @postChannel Reference.platform Sample.ledgerDown
          (Sample.storeWith "Test Show" 0.5%float) (js "Test Show") (Some Sample.payer)
        = JsonError 400 (js "Insufficient balance")).
Proof.
  apply (@payment_refused_at_balance Reference.platform Sample.ledgerDown
           (Sample.storeWith "Test Show" 0.5%float) (js "Test Show")
           (Some Sample.payer) (Sample.keyOf Sample.payer)
           (@newBlink Reference.platform (Sample.env WriteCompletes)
              (Sample.request "Test Show" 0.5%float) (Sample.keyOf Sample.owner))).
  - reflexivity.
  - vm_compute. reflexivity.
  - vm_compute. reflexivity.
Defined.

(** A registered fee of 2 is paid with 2000000000 lamports; a registered
    fee of 4.1 is answered 400 by an SDK that takes whole amounts only. *)
Lemma registered_channel_payment_witness :
  @postChannel Reference.platform Sample.ledgerUp
    (Sample.storeWith "Test Show" 2%float) (js "TEST   show") (Some Sample.payer)
  = ActionPost
      {| feePayer := Sample.keyOf Sample.payer;
         recentBlockhash := js "EkSnNWid2cvwEVnVx9aBqawnmiCNiDgp3gUdkDPTKN1N";
         instructions :=
           [ {| fromPubkey := Sample.keyOf Sample.payer;
                toPubkey := Sample.keyOf Sample.owner;
                lamports := 2000000000 |} ] |}
      (js "Thanks for joining! After payment, you can access the channel at: "
       ++ (orElse None defaultBase ++ js "/api/test-show")
       ++ js " (Telegram: " ++ js "https://t.me/testshow" ++ js ")")
  /\ @postChannel Reference.platform Sample.ledgerUp
       (Sample.storeWith "Test Show" 4.1%float) (js "TEST   show") (Some Sample.payer)
     = JsonError 400
         (js "The number cannot be converted to a BigInt because it is not an integer").
Proof.
  split.
  - etransitivity.
    + apply (@registered_channel_payment Reference.platform
               (Sample.env WriteCompletes) FileMissing
               (Sample.storeWith "Test Show" 2%float)
               (Sample.request "Test Show" 2%float)
               (js "/api/test-show") (js "Test Show") (js "TEST   show")
               Sample.ledgerUp Sample.payer
               (Sample.keyOf Sample.owner) (Sample.keyOf Sample.payer)
               5000000000%float).
      * reflexivity.
      * vm_compute. reflexivity.
      * vm_compute. reflexivity.
      * vm_compute. reflexivity.
      * vm_compute. reflexivity.
      * discriminate.
      * vm_compute. reflexivity.
      * reflexivity.
      * vm_compute. reflexivity.
    + vm_compute. reflexivity.
  - etransitivity.
    + apply (@registered_channel_payment Reference.platform
               (Sample.env WriteCompletes) FileMissing
               (Sample.storeWith "Test Show" 4.1%float)
               (Sample.request "Test Show" 4.1%float)
               (js "/api/test-show") (js "Test Show") (js "TEST   show")
               Sample.ledgerUp Sample.payer
               (Sample.keyOf Sample.owner) (Sample.keyOf Sample.payer)
               5000000000%float).
      * reflexivity.
      * vm_compute. reflexivity.
      * vm_compute. reflexivity.
      * vm_compute. reflexivity.
      * vm_compute. reflexivity.
      * discriminate.
      * vm_compute. reflexivity.
      * reflexivity.
      * vm_compute. reflexivity.
    + vm_compute. reflexivity.
Defined.

(* ===================================================================== *)
(** ** What the GET handler shows, and the fee test on whole numbers *)
(* ===================================================================== *)

Lemma find_route_sameFace (r : jsstring) (l l' : list BlinkData.t) :
  Forall2 sameFace l l' ->
  match find (fun b => eqs (BlinkData.route b) r) l,
        find (fun b => eqs (BlinkData.route b) r) l' with
  | Some a, Some b => sameFace a b
  | None, None => True
  | _, _ => False
  end.
Proof.
  induction 1 as [|a b l l' F _ IH]; simpl; [exact I|].
  destruct F as (R & F). rewrite <- R.
  destruct (eqs (BlinkData.route a) r); [|exact IH].
  split; assumption.
Qed.

(** The answer of the GET handler depends on the stored records only
    through route, coverImage, channelName and description: two stores
    whose records differ in publicKey, fee, link, telegramLink or createdAt
    alone are described alike under every name. *)
Theorem description_hides_payment_data (f g : FileState) (channelName : jsstring) :
  sameFaces f g -> getChannel f channelName = getChannel g channelName.
Proof.
  intros H. unfold getChannel, resolve.
  pose proof (find_route_sameFace (deriveRoute channelName) _ _ H) as F.
  destruct (find _ (blinks (readData f))) as [a|],
           (find _ (blinks (readData g))) as [b|]; try contradiction; [|reflexivity].
  destruct F as (_ & C & N & D). now rewrite C, N, D.
Qed.

Lemma description_hides_payment_data_witness :
  Sample.storeWith "Test Show" 2%float <> Sample.storeOwnedBy Sample.otherOwner
  /\ getChannel (Sample.storeWith "Test Show" 2%float) (js "test show")
     = getChannel (Sample.storeOwnedBy Sample.otherOwner) (js "test show").
Proof.
  split.
  - intros H. vm_compute in H. discriminate H.
  - apply (description_hides_payment_data
             (Sample.storeWith "Test Show" 2%float)
             (Sample.storeOwnedBy Sample.otherOwner) (js "test show")).
    vm_compute. repeat constructor.
Defined.

Lemma wholeFeeTested_all : forallb wholeFeeTested (map Z.of_nat (seq 0 4001)) = true.
Proof. vm_compute. reflexivity. Qed.

(** The fee test on whole numbers of SOL: among the fees 0, 1, ..., 4000
    exactly 1, ..., 1000 pass; and a fee that is not a number passes too,
    since both comparisons of the test are false on NaN. *)
Theorem fee_test_on_whole_numbers :
  (forall n : Z, (0 <= n <= 4000)%Z ->
     feeOk (wholeNumber n) = ((1 <=? n)%Z && (n <=? 1000)%Z))
  /\ feeOk nan = true.
Proof.
  split; [|reflexivity].
  intros n H.
  assert (I : In n (map Z.of_nat (seq 0 4001))).
  { apply in_map_iff. exists (Z.to_nat n). split; [lia|]. apply in_seq. lia. }
  pose proof (proj1 (forallb_forall _ _) wholeFeeTested_all n I) as E.
  unfold wholeFeeTested in E. now apply Bool.eqb_prop in E.
Qed.

(* ===================================================================== *)
(** ** The registration form against the server's tests *)
(* ===================================================================== *)

Lemma dropWhile_nil_iff {A} (p : A -> bool) (l : list A) :
  dropWhile p l = [] <-> forallb p l = true.
Proof.
  induction l as [|x l IH]; simpl; [tauto|].
  destruct (p x); simpl; [exact IH|]. split; discriminate.
Qed.

Lemma forallb_rev {A} (p : A -> bool) (l : list A) :
  forallb p (rev l) = forallb p l.
Proof.
  induction l as [|x l IH]; simpl; [reflexivity|].
  rewrite forallb_app, IH. simpl. rewrite andb_true_r. apply andb_comm.
Qed.

Lemma dropWhile_head {A} (p : A -> bool) (l : list A) :
  forallb p (dropWhile p l) = true -> dropWhile p l = [].
Proof.
  induction l as [|x l IH]; simpl; [reflexivity|].
  destruct (p x) eqn:E; [exact IH|]. simpl. rewrite E. discriminate.
Qed.

(** [trim] leaves nothing exactly of the strings made of white space. *)
Lemma trim_nil_iff (s : jsstring) : trim s = [] <-> forallb isWhiteSpace s = true.
Proof.
  unfold trim, trimEnd, trimStart. split.
  - intros H. apply (f_equal (@rev _)) in H. rewrite rev_involutive in H. simpl in H.
    apply dropWhile_nil_iff in H. rewrite forallb_rev in H.
    apply dropWhile_head in H. now apply dropWhile_nil_iff.
  - intros H. apply dropWhile_nil_iff in H. now rewrite H.
Qed.

Lemma truthy_trim (s : jsstring) :
  truthy (Some (trim s)) = negb (forallb isWhiteSpace s).
Proof.
  destruct (forallb isWhiteSpace s) eqn:E.
  - apply trim_nil_iff in E. now rewrite E.
  - destruct (trim s) eqn:T; [|reflexivity].
    apply trim_nil_iff in T. congruence.
Qed.

Lemma refuse_flag (refused : bool) (set : FormErrors.t -> FormErrors.t)
    (st : FormErrors.t * bool) :
  snd (refuse refused set st) = negb refused && snd st.
Proof. unfold refuse. now destruct refused. Qed.

(** What [validateForm] returns and what it records agree: the form is
    valid exactly when no field was refused, which is exactly when the
    errors object it hands to [setErrors] has no key; and a refused field
    has its key set whatever the other fields are. *)
Theorem form_valid_iff_no_error (parseFloat : jsstring -> float) (d : FormData.t) :
  (snd (validateForm parseFloat d) = true <-> fst (validateForm parseFloat d) = FormErrors.none)
  /\ (snd (validateForm parseFloat d)
      = negb (formNameRefused (FormData.channelName d))
        && negb (formDescriptionRefused (FormData.description d))
        && negb (formFeeRefused (parseFloat (FormData.fee d)))
        && negb (formKeyRefused (FormData.publicKey d))
        && negb (formCoverRefused (FormData.coverImage d))
        && negb (formLinkRefused (FormData.link d)))
  /\ (FormErrors.channelName (fst (validateForm parseFloat d)) = None
      <-> formNameRefused (FormData.channelName d) = false)
  /\ (FormErrors.description (fst (validateForm parseFloat d)) = None
      <-> formDescriptionRefused (FormData.description d) = false)
  /\ (FormErrors.fee (fst (validateForm parseFloat d)) = None
      <-> formFeeRefused (parseFloat (FormData.fee d)) = false)
  /\ (FormErrors.publicKey (fst (validateForm parseFloat d)) = None
      <-> formKeyRefused (FormData.publicKey d) = false)
  /\ (FormErrors.coverImage (fst (validateForm parseFloat d)) = None
      <-> formCoverRefused (FormData.coverImage d) = false)
  /\ (FormErrors.link (fst (validateForm parseFloat d)) = None
      <-> formLinkRefused (FormData.link d) = false).
Proof.
  unfold validateForm.
  destruct (formNameRefused _), (formDescriptionRefused _), (formFeeRefused _),
           (formKeyRefused _), (formCoverRefused _), (formLinkRefused _);
    cbv beta iota zeta delta
      [refuse fst snd negb andb FormErrors.none FormErrors.channelName
       FormErrors.description FormErrors.fee FormErrors.publicKey
       FormErrors.coverImage FormErrors.link];
    repeat split; intros; try reflexivity; try discriminate.
Qed.

(** The form's tests against the server's.  The form lets a channel name
    through exactly when the server's [validateChannelName] does and the
    name is not white space only; its description test is the server's;
    its fee test is the server's on the parsed number, except that it also
    refuses a text that parses to NaN; its key test is the server's test
    that the key is present; and a cover image it lets through is empty or
    starts with [http://] or [https://], as the server requires. *)
Theorem form_tests_against_server (d : FormData.t) (feeValue : float) :
  formNameRefused (FormData.channelName d)
  = negb (validateChannelName (FormData.channelName d)
          && negb (whiteSpaceOnly (FormData.channelName d)))
  /\ formDescriptionRefused (FormData.description d)
     = negb (descriptionOk (FormData.description d))
  /\ formFeeRefused feeValue = negb (feeOk feeValue && negb (is_nan feeValue))
  /\ formKeyRefused (FormData.publicKey d) = negb (keyPresent (FormData.publicKey d))
  /\ (formCoverRefused (FormData.coverImage d) = false ->
      FormData.coverImage d = []
      \/ startsWith (FormData.coverImage d) (js "http://") = true
      \/ startsWith (FormData.coverImage d) (js "https://") = true).
Proof.
  split; [|split; [|split; [|split]]].
  - unfold formNameRefused. rewrite truthy_trim, negb_involutive.
    unfold whiteSpaceOnly. destruct (FormData.channelName d) as [|c s] eqn:E.
    + reflexivity.
    + destruct (forallb isWhiteSpace (c :: s)), (validateChannelName (c :: s));
        reflexivity.
  - unfold formDescriptionRefused, descriptionOk.
    rewrite truthy_trim, !negb_involutive.
    destruct (forallb isWhiteSpace (FormData.description d)) eqn:W; [|reflexivity].
    apply trim_nil_iff in W. rewrite W. reflexivity.
  - unfold formFeeRefused, feeOk.
    destruct (is_nan feeValue), (feeValue <=? 0)%float, (1000 <? feeValue)%float;
      reflexivity.
  - reflexivity.
  - unfold formCoverRefused, testHttpPrefix.
    destruct (FormData.coverImage d) as [|c s]; [now left|]. right. simpl truthy in H.
    cbn [andb] in H. apply negb_false_iff in H.
    destruct (startsWith (c :: s) (js "https://")); [now right|].
    destruct (startsWith (c :: s) (js "http://")); [now left | discriminate].
Qed.

Lemma includes_middle (a sub b : jsstring) : includes (a ++ sub ++ b) sub = true.
Proof.
  assert (S : forall x y : jsstring, startsWith (x ++ y) x = true).
  { induction x as [|c x IH]; intros y; simpl; [now destruct y|].
    now rewrite N.eqb_refl, IH. }
  assert (U : forall s : jsstring,
             includes s sub
             = startsWith s sub || match s with [] => false | _ :: t => includes t sub end).
  { now destruct s. }
  induction a as [|c a IH].
  - change ([] ++ sub ++ b) with (sub ++ b). now rewrite U, S.
  - change ((c :: a) ++ sub ++ b) with (c :: (a ++ sub ++ b)).
    rewrite U, IH. apply orb_true_r.
Qed.

(** The form's link test is a containment test: a link with [t.me] or
    [telegram.me] anywhere in it is let through, whatever stands before
    and after. *)
Theorem form_link_test_is_containment (a b : jsstring) :
  formLinkRefused (a ++ js "t.me" ++ b) = false
  /\ formLinkRefused (a ++ js "telegram.me" ++ b) = false.
Proof.
  assert (T : forall (sub : jsstring) c, In c sub -> isWhiteSpace c = false ->
              truthy (Some (trim (a ++ sub ++ b))) = true).
  { intros sub c I W. rewrite truthy_trim. apply negb_true_iff.
    destruct (forallb isWhiteSpace (a ++ sub ++ b)) eqn:E; [|reflexivity].
    rewrite forallb_forall in E. rewrite <- W. symmetry. apply E.
    apply in_or_app. right. apply in_or_app. now left. }
  unfold formLinkRefused, testTelegram. split.
  - rewrite (T (js "t.me") 116%N); [|simpl; tauto | reflexivity].
    now rewrite includes_middle.
  - rewrite (T (js "telegram.me") 116%N); [|simpl; tauto | reflexivity].
    rewrite (includes_middle a (js "telegram.me") b). now rewrite orb_true_r.
Qed.

(* ===================================================================== *)
(** ** The earlier payment handler against the present one *)
(* ===================================================================== *)

Section EarlierAgainstPresent.

Context {P : Platform}.

(** Whenever the present handler answers a payment request with a
    transaction, the earlier handler answers the same request with a
    transaction too: same fee payer, same blockhash, the same transfer as
    first instruction, followed by a compute-unit price of 1000000 and a
    memo that carries the channel's name and fee; and the same message. *)
Theorem earlier_handler_builds_the_same_transfer
    (ledger : Ledger) (f : FileState) (channelName : jsstring)
    (account : option jsstring) (tx : Transaction) (msg : jsstring)
    (memoProgram : PublicKey) :
  newPublicKey MEMO_PROGRAM_ID = inr memoProgram ->
  postChannel ledger f channelName account = ActionPost tx msg ->
  exists blink ins,
    resolve f channelName = Some blink
    /\ instructions tx = [ins]
    /\ earlierPostChannel ledger f channelName account
       = Earlier.ActionPost
           {| Earlier.feePayer := feePayer tx;
              Earlier.recentBlockhash := recentBlockhash tx;
              Earlier.instructions :=
                [ Earlier.Transfer ins;
                  Earlier.SetComputeUnitPrice 1000000;
                  Earlier.MemoInstruction memoProgram
                    {| Earlier.action := js "create-blink";
                       Earlier.channelName := BlinkData.channelName blink;
                       Earlier.description := js "Thanks for joining!";
                       Earlier.fee := BlinkData.fee blink |} ] |}
           msg (BlinkData.link blink) (BlinkData.telegramLink blink).
Proof.
  intros M H. apply postChannel_ActionPost in H.
  destruct H as (blink & payer & owner & balance & ins & blockhash
                 & A & K1 & R & K2 & _ & _ & T & G & -> & ->).
  exists blink, ins. split; [exact R|]. split; [reflexivity|].
  unfold earlierPostChannel, feeInLamports in *.
  now rewrite A, R, K1, K2, T, M, G.
Qed.

(** Where the two handlers part.  The earlier one asks for no balance: a
    payer whose balance is below the fee, or whose balance cannot be read,
    is refused by the present handler and given a transaction by the
    earlier one.  And the earlier one looks the channel up before it reads
    the account: a malformed account on an unknown channel is answered 404
    by the earlier handler and 400 by the present one. *)
Theorem earlier_handler_skips_the_balance
    (ledger : Ledger) (f : FileState) (channelName : jsstring)
    (account : option jsstring) :
  truthy account = true ->
  (forall blink payer owner ins blockhash memoProgram,
     resolve f channelName = Some blink ->
     newPublicKey (orElse account []) = inr payer ->
     newPublicKey (BlinkData.publicKey blink) = inr owner ->
     SystemProgram_transfer payer owner
       (BlinkData.fee blink * LAMPORTS_PER_SOL)%float = inr ins ->
     newPublicKey MEMO_PROGRAM_ID = inr memoProgram ->
     getLatestBlockhash ledger = inr blockhash ->
     (exists tx msg link tlink,
        earlierPostChannel ledger f channelName account
        = Earlier.ActionPost tx msg link tlink
        /\ Earlier.feePayer tx = payer
        /\ nth_error (Earlier.instructions tx) 0 = Some (Earlier.Transfer ins))
     /\ ((forall balance, getBalance ledger payer = inr balance ->
            (balance <? BlinkData.fee blink * LAMPORTS_PER_SOL)%float = true ->
            postChannel ledger f channelName account
            = JsonError 400 (js "Insufficient balance"))
         /\ (forall t, getBalance ledger payer = inl t ->
               postChannel ledger f channelName account
               = JsonError 500 (js "Error checking balance"))))
  /\ (forall t, resolve f channelName = None ->
        newPublicKey (orElse account []) = inl t ->
        earlierPostChannel ledger f channelName account
        = Earlier.JsonError 404 msgNotFound
        /\ postChannel ledger f channelName account
           = JsonError 400 (js "Invalid account public key")).
Proof.
  intros A. split.
  - intros blink payer owner ins blockhash memoProgram R K1 K2 T M G. split.
    + do 4 eexists. unfold earlierPostChannel.
      rewrite A, R, K1, K2, T, M, G. simpl. repeat split.
    + unfold postChannel, postChannelBody, bind, tryCatch, call, answerIf, feeInLamports.
      rewrite A, K1, R, K2. split.
      * intros balance B L. now rewrite B, L.
      * intros t B. now rewrite B.
  - intros t R K. split.
    + unfold earlierPostChannel. now rewrite A, R.
    + unfold postChannel, postChannelBody, bind, tryCatch, call, answerIf.
      now rewrite A, K.
Qed.

End EarlierAgainstPresent.

Lemma earlier_handler_builds_the_same_transfer_witness :
  exists blink ins,
    resolve (Sample.storeWith "Test Show" 2%float) (js "test show") = Some blink
    /\ instructions Sample.paidTransaction = [ins]
    /\ @earlierPostChannel Reference.platform Sample.ledgerUp
         (Sample.storeWith "Test Show" 2%float) (js "test show") (Some Sample.payer)
       = Earlier.ActionPost
           {| Earlier.feePayer := feePayer Sample.paidTransaction;
              Earlier.recentBlockhash := recentBlockhash Sample.paidTransaction;
              Earlier.instructions :=
                [ Earlier.Transfer ins;
                  Earlier.SetComputeUnitPrice 1000000;
                  Earlier.MemoInstruction (Sample.keyOf MEMO_PROGRAM_ID)
                    {| Earlier.action := js "create-blink";
                       Earlier.channelName := BlinkData.channelName blink;
                       Earlier.description := js "Thanks for joining!";
                       Earlier.fee := BlinkData.fee blink |} ] |}
           Sample.paidMessage (BlinkData.link blink) (BlinkData.telegramLink blink).
Proof.
  apply (@earlier_handler_builds_the_same_transfer Reference.platform
           Sample.ledgerUp (Sample.storeWith "Test Show" 2%float) (js "test show")
           (Some Sample.payer) Sample.paidTransaction Sample.paidMessage
           (Sample.keyOf MEMO_PROGRAM_ID)).
  - vm_compute. reflexivity.
  - vm_compute. reflexivity.
Defined.

Lemma earlier_handler_skips_the_balance_witness :
  @postChannel Reference.platform Sample.ledgerPoor
    (Sample.storeWith "Test Show" 2%float) (js "Test Show") (Some Sample.payer)
  = JsonError 400 (js "Insufficient balance")
  /\ (exists tx msg link tlink,
        @earlierPostChannel Reference.platform Sample.ledgerPoor
          (Sample.storeWith "Test Show" 2%float) (js "Test Show") (Some Sample.payer)
        = Earlier.ActionPost tx msg link tlink
        /\ Earlier.feePayer tx = Sample.keyOf Sample.payer
        /\ nth_error (Earlier.instructions tx) 0
           = Some (Earlier.Transfer
                     {| fromPubkey := Sample.keyOf Sample.payer;
                        toPubkey := Sample.keyOf Sample.owner;
                        lamports := 2000000000 |})).
Proof.
  destruct (@earlier_handler_skips_the_balance Reference.platform Sample.ledgerPoor
              (Sample.storeWith "Test Show" 2%float) (js "Test Show")
              (Some Sample.payer) eq_refl) as [Built _].
  destruct (Built
              (@newBlink Reference.platform (Sample.env WriteCompletes)
                 (Sample.request "Test Show" 2%float) (Sample.keyOf Sample.owner))
              (Sample.keyOf Sample.payer) (Sample.keyOf Sample.owner)
              {| fromPubkey := Sample.keyOf Sample.payer;
                 toPubkey := Sample.keyOf Sample.owner;
                 lamports := 2000000000 |}
              (js "EkSnNWid2cvwEVnVx9aBqawnmiCNiDgp3gUdkDPTKN1N")
              (Sample.keyOf MEMO_PROGRAM_ID))
    as [E [Poor _]]; try (vm_compute; reflexivity).
  split; [|exact E].
  apply (Poor 1%float); vm_compute; reflexivity.
Defined.

(* ===================================================================== *)
(** ** What the store holds *)
(* ===================================================================== *)

Section StoreContents.

Context {P : Platform}.

Lemma newBlink_wellFormed (env : Env) (req : BlinkRequest.t) (pubKey : PublicKey) :
  validRequest req = true -> wellFormedChannel (newBlink env req pubKey).
Proof.
  intros V. apply validRequest_spec in V.
  destruct V as (V1 & V2 & V3 & _ & V5 & V6 & _).
  unfold wellFormedChannel. simpl.
  repeat split; try assumption; try reflexivity.
  - destruct (BlinkRequest.coverImage req) as [[|c r]|]; discriminate.
  - destruct (BlinkRequest.coverImage req) as [[|c r]|]; simpl;
      [now left | right; exact V5 | now left].
  - now exists pubKey.
Qed.

Lemma postBlinkCreate_wellFormed (env : Env) (f : FileState) (req : BlinkRequest.t) :
  Forall wellFormedChannel (blinks (readData f)) ->
  Forall wellFormedChannel (blinks (readData (snd (postBlinkCreate env f req)))).
Proof.
  intros I.
  destruct (postBlinkCreate_cases env f req)
    as [(msg & _ & E) | (V & pubKey & _ & E)]; rewrite E; [exact I|].
  cbv zeta.
  destruct (existsb _ (blinks (readData f))); [exact I|].
  destruct (disk env); simpl.
  - rewrite readData_overwritten. destruct (canBeRead f); [|constructor].
    apply Forall_app. split; [exact I|].
    constructor; [now apply newBlink_wellFormed | constructor].
  - exact I.
  - rewrite readData_torn. constructor.
Qed.

(** Whatever registrations are made on a store that starts empty, and
    whatever the disk does to each save, every record the store holds has
    what registration checks: a name that passes the channel-name test and
    the route derived from it, a description and a fee that pass their
    tests, a Telegram link that passes its test, a cover image that is the
    default one or passes the URL test, and an owner address printed by the
    SDK. *)
Theorem stored_channels_are_well_formed (reqs : list (Env * BlinkRequest.t)) :
  Forall wellFormedChannel (blinks (readData (registerAll FileMissing reqs))).
Proof.
  assert (G : forall f, Forall wellFormedChannel (blinks (readData f)) ->
                        Forall wellFormedChannel (blinks (readData (registerAll f reqs)))).
  { induction reqs as [|[env req] reqs IH]; intros f I; [exact I|].
    simpl. apply IH. now apply postBlinkCreate_wellFormed. }
  apply G. constructor.
Qed.

End StoreContents.
